(** * voicemode adapters: an OpenAI-shaped TTS service and STT service

    Shallow embedding of [piper-adapter/main.py] (module [TTS]) and
    [revai-adapter/main.py] (module [STT]).

    Python text is a list of code points, decoded JSON is an inductive
    value, a raised exception is the [Raise] branch of [result], and every
    operation that talks to the outside (HTTP client calls, [asyncio.sleep],
    the Piper subprocess, the temporary file) is an event of an interaction
    tree.  The [while True] polling loops are [ITree.iter].  A [world]
    gives the events their meaning: a scripted backend that answers the
    HTTP calls in order, a disk, and a log of the calls that were issued.

    Logging calls ([logger.info], [logger.error]) and wall-clock timing
    have no influence on results and are left out. *)

From Stdlib Require Import String Ascii List NArith ZArith QArith Bool Lia.
From ITree Require Import ITree ITreeFacts Events.State Events.StateFacts.
Import ListNotations.
Import ITreeNotations.
Local Open Scope itree_scope.
Local Close Scope Q_scope.
Local Open Scope list_scope.

Set Implicit Arguments.

(* ===================================================================== *)
(** ** Python values *)
(* ===================================================================== *)

(** A [str] is a sequence of Unicode code points. *)
Definition pystr := list N.

(** [bytes] objects. *)
Definition pybytes := list Byte.byte.

(** Source literals; every literal of the two programs is ASCII. *)
Definition lit (s : string) : pystr :=
  List.map N_of_ascii (list_ascii_of_string s).

Fixpoint str_eqb (a b : pystr) : bool :=
  match a, b with
  | [], [] => true
  | x :: a', y :: b' => N.eqb x y && str_eqb a' b'
  | _, _ => false
  end.

(** [x in xs] for a list (or the keys of a dict) of strings. *)
Definition str_in (x : pystr) (xs : list pystr) : bool :=
  existsb (str_eqb x) xs.

(** [sep.join(parts)]. *)
Fixpoint join (sep : pystr) (parts : list pystr) : pystr :=
  match parts with
  | [] => []
  | [p] => p
  | p :: rest => p ++ sep ++ join sep rest
  end.

(** A dict literal or a decoded JSON object: keys in insertion order,
    no key twice. *)
Definition dict (V : Type) := list (pystr * V).

Fixpoint dict_get {V} (d : dict V) (k : pystr) : option V :=
  match d with
  | [] => None
  | (k', v) :: d' => if str_eqb k' k then Some v else dict_get d' k
  end.

Definition dict_keys {V} (d : dict V) : list pystr := List.map fst d.

(** [str.isspace] on one code point: the characters [str.strip()] removes. *)
Definition is_space (c : N) : bool :=
  ((9 <=? c) && (c <=? 13) || (28 <=? c) && (c <=? 32)
   || (c =? 133) || (c =? 160) || (c =? 5760)
   || (8192 <=? c) && (c <=? 8202)
   || (c =? 8232) || (c =? 8233) || (c =? 8239) || (c =? 8287)
   || (c =? 12288))%N.

Fixpoint lstrip (s : pystr) : pystr :=
  match s with
  | [] => []
  | c :: s' => if is_space c then lstrip s' else s
  end.

Definition rstrip (s : pystr) : pystr := rev (lstrip (rev s)).

(** [s.strip()]. *)
Definition strip (s : pystr) : pystr := rstrip (lstrip s).

(** Truth value of a [str]. *)
Definition str_truthy (s : pystr) : bool :=
  match s with [] => false | _ => true end.

(** Decoded JSON, as [json.loads] returns it.  Numbers are kept as
    rationals; no field read by the two programs is numeric. *)
#[warnings="-register-all"]
Inductive json : Type :=
| JNull
| JBool (b : bool)
| JNum (q : Q)
| JStr (s : pystr)
| JArr (items : list json)
| JObj (fields : list (pystr * json)).

(** Truth value of a decoded JSON value ([if channels:]). *)
Definition truthy (j : json) : bool :=
  match j with
  | JNull => false
  | JBool b => b
  | JNum q => negb (Qeq_bool q 0)
  | JStr s => str_truthy s
  | JArr l => match l with [] => false | _ => true end
  | JObj l => match l with [] => false | _ => true end
  end.

(** [j == "literal"]: only a string can equal a string. *)
Definition json_is_str (j : json) (s : pystr) : bool :=
  match j with
  | JStr t => str_eqb t s
  | _ => false
  end.

(* ===================================================================== *)
(** ** Exceptions *)
(* ===================================================================== *)

(** What a call can raise: FastAPI's [HTTPException], or any other
    exception, of which the programs only ever use the class (to tell it
    from [HTTPException] and [ValueError]) and [str(e)].  The messages
    of exceptions raised by the interpreter are shortened to their
    operative part. *)
Inductive exn : Type :=
| HTTPException (status_code : Z) (detail : pystr)
| ValueError (msg : pystr)
| PyError (cls : pystr) (msg : pystr).

Inductive result (A : Type) : Type :=
| Ok (a : A)
| Raise (e : exn).
Arguments Ok {A} a.
Arguments Raise {A} e.

(** Sequencing of pure steps that may raise. *)
Definition and_then {A B} (r : result A) (k : A -> result B) : result B :=
  match r with
  | Ok a => k a
  | Raise e => Raise e
  end.

Notation "'let?' x ':=' r 'in' k" := (and_then r (fun x => k))
  (at level 10, x name, k at level 200).

(** [str(e)] as used by the endpoints' last handler. *)
Definition exn_str (e : exn) : pystr :=
  match e with
  | HTTPException _ d => d
  | ValueError m => m
  | PyError _ m => m
  end.

Definition AttributeError := PyError (lit "AttributeError").
Definition KeyError := PyError (lit "KeyError").
Definition TypeError := PyError (lit "TypeError").
Definition IndexError := PyError (lit "IndexError").
Definition JSONDecodeError := PyError (lit "JSONDecodeError").
Definition FileNotFoundError := PyError (lit "FileNotFoundError").

(** [j.get(key, dflt)]: defined on objects only. *)
Definition json_get (j : json) (key : pystr) (dflt : json) : result json :=
  match j with
  | JObj fields =>
      match dict_get fields key with
      | Some v => Ok v
      | None => Ok dflt
      end
  | _ => Raise (AttributeError (lit "object has no attribute 'get'"))
  end.

(** [j[key]] with a string key. *)
Definition json_item (j : json) (key : pystr) : result json :=
  match j with
  | JObj fields =>
      match dict_get fields key with
      | Some v => Ok v
      | None => Raise (KeyError (lit "'" ++ key ++ lit "'"))
      end
  | _ => Raise (TypeError (lit "indices must be integers"))
  end.

(** [j[0]]. *)
Definition json_first (j : json) : result json :=
  match j with
  | JArr (x :: _) => Ok x
  | JArr [] => Raise (IndexError (lit "list index out of range"))
  | JStr (c :: _) => Ok (JStr [c])
  | JStr [] => Raise (IndexError (lit "string index out of range"))
  | JObj fields => Raise (KeyError (lit "0"))
  | _ => Raise (TypeError (lit "object is not subscriptable"))
  end.

(* ===================================================================== *)
(** ** The outside world as events *)
(* ===================================================================== *)

(** An [httpx.Response]: [json_body] is [None] when [.json()] would fail
    to decode the body. *)
Record response : Type := mkResponse {
  status_code : Z;
  text : pystr;
  content : pybytes;
  json_body : option json }.

(** [response.json()]. *)
Definition response_json (r : response) : result json :=
  match json_body r with
  | Some j => Ok j
  | None => Raise (JSONDecodeError (lit "Expecting value"))
  end.

(** [HTTPException(status_code=response.status_code, detail=response.text)]. *)
Definition upstream_error (r : response) : exn :=
  HTTPException (status_code r) (text r).

(** The three request bodies the providers send. *)
Inductive payload : Type :=
| JsonBody (j : json)
| Multipart (field filename : pystr) (file : pybytes) (content_type : pystr)
            (data : dict json)
| RawBody (file : pybytes).

(** A finished subprocess. *)
Record completed : Type := mkCompleted {
  returncode : Z;
  stdout : pybytes;
  stderr : pybytes }.

Definition files := pystr -> option pybytes.

Variant ioE : Type -> Type :=
| HttpPost (url : pystr) (headers : dict pystr) (body : payload)
    : ioE (result response)
| HttpGet (url : pystr) (headers : dict pystr) : ioE (result response)
| Sleep (millis : N) : ioE unit
| PathExists (path : pystr) : ioE bool
| NamedTemporaryFile (suffix : pystr) : ioE (result pystr)
| Popen (cmd : list pystr) : ioE (result (list pystr))
| Communicate (proc : list pystr) (input : pybytes) (timeout : N)
    : ioE (result completed)
| ReadFile (path : pystr) : ioE (result pybytes)
| Unlink (path : pystr) : ioE (result unit).

(** Sequencing of calls that may raise: the first raised exception ends
    the computation. *)
Definition bindR {E A B} (t : itree E (result A))
    (k : A -> itree E (result B)) : itree E (result B) :=
  r <- t ;;
  match r with
  | Ok a => k a
  | Raise e => Ret (Raise e)
  end.

Notation "x <-? t ;;; k" := (bindR t (fun x => k))
  (at level 62, t at next level, right associativity) : itree_scope.

(** A pure step that may raise. *)
Definition pureR {E A} (r : result A) : itree E (result A) := Ret r.

(** [try: body finally: fin].  The finaliser runs on every outcome of
    the body; an exception of the finaliser replaces that outcome. *)
Definition try_finally {E A} (body : itree E (result A))
    (fin : itree E (result unit)) : itree E (result A) :=
  r <- body ;;
  f <- fin ;;
  match f with
  | Ok _ => Ret r
  | Raise e => Ret (Raise e)
  end.

(** *** A world to run the events in *)

(** What was sent out, in order. *)
Inductive call : Type :=
| Posted (url : pystr) (headers : dict pystr) (body : payload)
| Got (url : pystr) (headers : dict pystr)
| Slept (millis : N).

(** [replies]: what the remote side answers to the HTTP calls still to
    come, in order (an exception of the client, such as a timeout, is a
    [Raise]); [calls]: the calls issued so far; [disk]: the files that
    exist; [next_tmp]: the name the next temporary file gets (or the
    exception of creating it); [spawn] and [run]: what starting a command
    and waiting for it do, [run] with the disk before and after.
    Removing a file that exists succeeds. *)
Record world : Type := mkWorld {
  replies : list (result response);
  calls : list call;
  disk : files;
  next_tmp : result pystr;
  spawn : list pystr -> result unit;
  run : list pystr -> pybytes -> files -> files * result completed }.

Definition with_disk (d : files) (w : world) : world :=
  mkWorld (replies w) (calls w) d (next_tmp w) (spawn w) (run w).

Definition write_file (p : pystr) (b : option pybytes) (d : files) : files :=
  fun q => if str_eqb q p then b else d q.

(** One HTTP round trip: the call is logged and the next scripted reply
    is consumed; when the script has run out the client raises. *)
Definition round_trip (c : call) (w : world) : world * result response :=
  match replies w with
  | r :: rest =>
      (mkWorld rest (calls w ++ [c]) (disk w) (next_tmp w) (spawn w) (run w), r)
  | [] =>
      (mkWorld [] (calls w ++ [c]) (disk w) (next_tmp w) (spawn w) (run w),
       Raise (PyError (lit "ConnectError") (lit "no reply")))
  end.

Definition step {T} (e : ioE T) (w : world) : world * T :=
  match e in ioE T return world * T with
  | HttpPost url h b => round_trip (Posted url h b) w
  | HttpGet url h => round_trip (Got url h) w
  | Sleep ms =>
      (mkWorld (replies w) (calls w ++ [Slept ms]) (disk w) (next_tmp w)
               (spawn w) (run w), tt)
  | PathExists p =>
      (w, match disk w p with Some _ => true | None => false end)
  | NamedTemporaryFile _ =>
      match next_tmp w with
      | Ok p => (with_disk (write_file p (Some []) (disk w)) w, Ok p)
      | Raise e => (w, Raise e)
      end
  | Popen cmd =>
      (w, match spawn w cmd with Ok _ => Ok cmd | Raise e => Raise e end)
  | Communicate proc input _ =>
      let '(d, r) := run w proc input (disk w) in (with_disk d w, r)
  | ReadFile p =>
      (w, match disk w p with
          | Some b => Ok b
          | None => Raise (FileNotFoundError p)
          end)
  | Unlink p =>
      match disk w p with
      | Some _ => (with_disk (write_file p None (disk w)) w, Ok tt)
      | None => (w, Raise (FileNotFoundError p))
      end
  end.

Definition handle : ioE ~> Monads.stateT world (itree void1) :=
  fun _ e w => Ret (step e w).

(** Running a program in a world. *)
Definition exec {R} (t : itree ioE R) (w : world) : itree void1 (world * R) :=
  interp_state handle t w.

(** What the interpreter is told about text that Python computes with
    its Unicode tables or the operating system's conventions. *)
Class PyRuntime : Type := {
(** [s.lower()] *)
str_lower : pystr -> pystr;
(** the text an f-string shows for a decoded JSON value *)
format_value : json -> pystr;
(** [s.encode('utf-8')] *)
utf8_encode : pystr -> result pybytes;
(** [b.decode()] *)
utf8_decode : pybytes -> result pystr;
(** [str(Path(dir) / name)] *)
path_join : pystr -> pystr -> pystr }.

(** The process environment: [os.getenv], and whether [which piper]
    finishes with exit status 0. *)
Record os_env : Type := mkEnv {
  getenv : pystr -> option pystr;
  which_piper : bool }.

(** [os.getenv(key, default)]. *)
Definition getenv_or (env : os_env) (key dflt : pystr) : pystr :=
  match getenv env key with
  | Some v => v
  | None => dflt
  end.

(** [s or dflt] for a string, and for an optional string. *)
Definition str_or (s dflt : pystr) : pystr :=
  if str_truthy s then s else dflt.

Definition opt_or (o : option pystr) (dflt : pystr) : pystr :=
  match o with
  | Some s => str_or s dflt
  | None => dflt
  end.

(** [bool(token)] for an optional string. *)
Definition opt_truthy (o : option pystr) : bool :=
  match o with
  | Some s => str_truthy s
  | None => false
  end.

(** [d.get(key, dflt)] on a dict literal. *)
Definition dict_get_or {V} (d : dict V) (key : pystr) (dflt : V) : V :=
  match dict_get d key with
  | Some v => v
  | None => dflt
  end.

(** [while True: body]: the body either goes round again with a new loop
    state, returns, or raises. *)
Definition while_true {E S A} (body : S -> itree E (result (S + A)))
  : S -> itree E (result A) :=
  ITree.iter (fun s =>
    r <- body s ;;
    Ret (match r with
         | Ok (inl s') => inl s'
         | Ok (inr a) => inr (Ok a)
         | Raise e => inr (Raise e)
         end)).

(** [f"Bearer {token}"] for an optional token. *)
Definition bearer (prefix : pystr) (token : option pystr) : pystr :=
  prefix ++ match token with Some t => t | None => lit "None" end.

(** [client.get(url)] where [url] came out of a JSON document: httpx
    refuses anything but a string before sending. *)
Definition get_json_url (url : json) : itree ioE (result response) :=
  match url with
  | JStr u => ITree.trigger (HttpGet u [])
  | _ => Ret (Raise (TypeError (lit "Invalid type for url")))
  end.

(** The JSON object [GET /health] answers with. *)
Record health : Type := mkHealth {
  status : pystr;
  provider : option pystr;
  provider_configured : bool }.

(* ===================================================================== *)
(** ** piper-adapter/main.py *)
(* ===================================================================== *)

Module TTS.

(** The abstract base class [TTSProvider]: what the front end uses of a
    provider. *)
Record TTSProvider : Type := mkProvider {
  name : pystr;
  is_configured : os_env -> bool;
  synthesize : pystr -> pystr -> Q -> itree ioE (result pybytes) }.

Module PiperProvider.

Record self : Type := mkSelf {
  voices_dir : pystr;
  default_voice : pystr;
  voice_map : dict pystr }.

Definition init (env : os_env) : self :=
  {| voices_dir := getenv_or env (lit "PIPER_VOICES_DIR") (lit "/app/voices");
     default_voice :=
       getenv_or env (lit "PIPER_DEFAULT_VOICE") (lit "en_US-lessac-medium");
     voice_map :=
       [ (lit "alloy", lit "en_US-lessac-medium");
         (lit "echo", lit "en_US-lessac-medium");
         (lit "fable", lit "en_US-lessac-medium");
         (lit "onyx", lit "en_US-lessac-medium");
         (lit "nova", lit "en_US-lessac-medium");
         (lit "shimmer", lit "en_US-lessac-medium") ] |}.

Definition name (s : self) : pystr := lit "Piper".

Definition is_configured (s : self) (env : os_env) : bool := which_piper env.

Section Methods.
Context {rt : PyRuntime}.

Definition _get_voice_path (s : self) (voice_name : pystr) : pystr * pystr :=
  let piper_voice :=
    dict_get_or (voice_map s) (str_lower voice_name) voice_name in
  let model_path := path_join (voices_dir s) (piper_voice ++ lit ".onnx") in
  (model_path, piper_voice).

(** The [try] block of [synthesize]. *)
Definition run_piper (model_or_name tmp_path text : pystr)
  : itree ioE (result pybytes) :=
  let cmd := [lit "piper"; lit "--model"; model_or_name;
              lit "--output_file"; tmp_path] in
  process <-? ITree.trigger (Popen cmd) ;;;
  input <-? pureR (utf8_encode text) ;;;
  done <-? ITree.trigger (Communicate process input 120) ;;;
  if negb (returncode done =? 0)%Z then
    (* [stderr.decode()] is evaluated for the log line, then again for
       the detail *)
    _ <-? pureR (utf8_decode (stderr done)) ;;;
    err <-? pureR (utf8_decode (stderr done)) ;;;
    Ret (Raise (HTTPException 500 (lit "TTS failed: " ++ err)))
  else
    audio_data <-? ITree.trigger (ReadFile tmp_path) ;;;
    Ret (Ok audio_data).

(** The [finally] block of [synthesize]. *)
Definition remove_tmp (tmp_path : pystr) : itree ioE (result unit) :=
  present <- ITree.trigger (PathExists tmp_path) ;;
  if (present : bool) then ITree.trigger (Unlink tmp_path) else Ret (Ok tt).

Definition synthesize (s : self) (text voice : pystr) (speed : Q)
  : itree ioE (result pybytes) :=
  let '(model_path, piper_voice) := _get_voice_path s voice in
  present <- ITree.trigger (PathExists model_path) ;;
  let model_or_name := if (present : bool) then model_path else piper_voice in
  tmp_path <-? ITree.trigger (NamedTemporaryFile (lit ".wav")) ;;;
  try_finally (run_piper model_or_name tmp_path text) (remove_tmp tmp_path).

Definition make (env : os_env) : TTSProvider :=
  let s := init env in
  mkProvider (name s) (is_configured s) (synthesize s).
End Methods.

End PiperProvider.

Module ReplicateKokoroProvider.

Record self : Type := mkSelf {
  api_token : option pystr;
  model : pystr;
  version : pystr;
  default_voice : pystr;
  voice_map : dict pystr;
  available_voices : list pystr }.

Definition init (env : os_env) : self :=
  {| api_token := getenv env (lit "REPLICATE_API_TOKEN");
     model := lit "jaaari/kokoro-82m";
     version :=
       getenv_or env (lit "KOKORO_VERSION")
         (lit "f559560eb822dc509045f3921a1921234918b91739db4bf3daab2169b71c7a13");
     default_voice := getenv_or env (lit "KOKORO_DEFAULT_VOICE") (lit "af_bella");
     voice_map :=
       [ (lit "alloy", lit "af_alloy");
         (lit "echo", lit "am_echo");
         (lit "fable", lit "bf_emma");
         (lit "onyx", lit "am_onyx");
         (lit "nova", lit "af_nova");
         (lit "shimmer", lit "af_bella") ];
     available_voices :=
       List.map lit
         [ "af_alloy"; "af_aoede"; "af_bella"; "af_heart"; "af_jessica";
           "af_kore"; "af_nicole"; "af_nova"; "af_river"; "af_sarah"; "af_sky";
           "am_adam"; "am_echo"; "am_eric"; "am_fenrir"; "am_liam";
           "am_michael"; "am_onyx"; "am_puck"; "am_santa";
           "bf_alice"; "bf_emma"; "bf_isabella"; "bf_lily";
           "bm_daniel"; "bm_fable"; "bm_george"; "bm_lewis";
           "ff_siwis";
           "hf_alpha"; "hf_beta";
           "hm_omega"; "hm_psi";
           "if_sara";
           "im_nicola";
           "jf_alpha"; "jf_gongitsune";
           "jm_kumo";
           "pf_dora";
           "pm_alex"; "pm_santa";
           "zf_xiaobei"; "zf_xiaoni"; "zf_xiaoxiao"; "zf_xiaoyi";
           "zm_yunjian"; "zm_yunxi"; "zm_yunxia"; "zm_yunyang" ]%string |}.

Definition name (s : self) : pystr :=
  lit "Replicate Kokoro (" ++ default_voice s ++ lit ")".

Definition is_configured (s : self) (env : os_env) : bool :=
  opt_truthy (api_token s).

Definition predictions_url : pystr := lit "https://api.replicate.com/v1/predictions".

Section Methods.
Context {rt : PyRuntime}.

(** The voice sent to the backend (the first lines of [synthesize]). *)
Definition kokoro_voice (s : self) (voice : pystr) : pystr :=
  let v := dict_get_or (voice_map s) (str_lower voice) voice in
  if negb (str_in v (available_voices s)) then default_voice s else v.

Definition create_prediction (s : self) (text voice : pystr) (speed : Q)
  : itree ioE (result response) :=
  ITree.trigger
    (HttpPost predictions_url
       [ (lit "Authorization", bearer (lit "Bearer ") (api_token s));
         (lit "Content-Type", lit "application/json") ]
       (JsonBody
          (JObj [ (lit "version", JStr (version s));
                  (lit "input",
                   JObj [ (lit "text", JStr text);
                          (lit "voice", JStr (kokoro_voice s voice));
                          (lit "speed", JNum speed) ]) ]))).

Definition poll_prediction (s : self) (prediction_id : json)
  : itree ioE (result response) :=
  ITree.trigger
    (HttpGet (predictions_url ++ lit "/" ++ format_value prediction_id)
       [ (lit "Authorization", bearer (lit "Bearer ") (api_token s)) ]).

(** One round of the [while True] loop; the loop state is
    [poll_count]. *)
Definition poll_once (s : self) (prediction_id : json) (poll_count : nat)
  : itree ioE (result (nat + pybytes)) :=
  poll_response <-? poll_prediction s prediction_id ;;;
  let poll_count := S poll_count in
  result <-? pureR (response_json poll_response) ;;;
  status <-? pureR (json_item result (lit "status")) ;;;
  if json_is_str status (lit "succeeded") then
    output_url <-? pureR (json_item result (lit "output")) ;;;
    audio_response <-? get_json_url output_url ;;;
    if negb (status_code audio_response =? 200)%Z then
      Ret (Raise (HTTPException 500 (lit "Failed to download audio")))
    else
      Ret (Ok (inr (content audio_response)))
  else if json_is_str status (lit "failed") then
    error <-? pureR (json_get result (lit "error") (JStr (lit "Unknown error"))) ;;;
    Ret (Raise (HTTPException 500 (lit "TTS failed: " ++ format_value error)))
  else if json_is_str status (lit "canceled") then
    Ret (Raise (HTTPException 500 (lit "TTS prediction was canceled")))
  else
    ITree.trigger (Sleep 500) ;;
    Ret (Ok (inl poll_count)).

Definition synthesize (s : self) (text voice : pystr) (speed : Q)
  : itree ioE (result pybytes) :=
  response <-? create_prediction s text voice speed ;;;
  if negb (status_code response =? 201)%Z then
    Ret (Raise (upstream_error response))
  else
    prediction <-? pureR (response_json response) ;;;
    prediction_id <-? pureR (json_item prediction (lit "id")) ;;;
    while_true (poll_once s prediction_id) 0%nat.

Definition make (env : os_env) : TTSProvider :=
  let s := init env in
  mkProvider (name s) (is_configured s) (synthesize s).
End Methods.

End ReplicateKokoroProvider.

Section Service.
Context {rt : PyRuntime}.

(** The registry: identifier and constructor, in the order of the dict
    literal. *)
Definition PROVIDERS : dict (os_env -> TTSProvider) :=
  [ (lit "piper", PiperProvider.make);
    (lit "kokoro", ReplicateKokoroProvider.make) ].

Definition get_provider (env : os_env) : result TTSProvider :=
  let provider_name := str_lower (getenv_or env (lit "TTS_PROVIDER") (lit "piper")) in
  match dict_get PROVIDERS provider_name with
  | None =>
      let available := join (lit ", ") (dict_keys PROVIDERS) in
      Raise (ValueError (lit "Unknown TTS provider: " ++ provider_name
                           ++ lit ". Available: " ++ available))
  | Some cls =>
      let provider := cls env in
      if negb (is_configured provider env) then
        Raise (ValueError (lit "TTS provider '" ++ provider_name
                             ++ lit "' is not configured. Check requirements."))
      else Ok provider
  end.

(** The module-level [provider] after [startup]: a [ValueError] of
    [get_provider] is logged and leaves it [None]. *)
Definition startup (env : os_env) : option TTSProvider :=
  match get_provider env with
  | Ok p => Some p
  | Raise _ => None
  end.
End Service.

Record SpeechRequest : Type := mkSpeechRequest {
  model : pystr;
  input : pystr;
  voice : pystr;
  response_format : option pystr;
  speed : option Q }.

(** [StreamingResponse(io.BytesIO(audio_data), media_type=..., headers=...)]. *)
Record StreamingResponse : Type := mkStreaming {
  body : pybytes;
  media_type : pystr;
  headers : dict pystr }.

(** [request.speed or 1.0]. *)
Definition speed_or_default (sp : option Q) : Q :=
  match sp with
  | Some q => if Qeq_bool q 0 then 1%Q else q
  | None => 1%Q
  end.

(** [POST /v1/audio/speech], with the module-level [provider] as an
    argument. *)
Definition create_speech (provider : option TTSProvider) (request : SpeechRequest)
  : itree ioE (result StreamingResponse) :=
  match provider with
  | None =>
      Ret (Raise (HTTPException 500
        (lit "No TTS provider configured. Set TTS_PROVIDER and required configuration.")))
  | Some p =>
      if negb (str_truthy (input request))
         || negb (str_truthy (strip (input request)))
      then Ret (Raise (HTTPException 400 (lit "Input text is required")))
      else
        r <- synthesize p (input request) (voice request)
               (speed_or_default (speed request)) ;;
        match r with
        | Ok audio_data =>
            Ret (Ok (mkStreaming audio_data (lit "audio/wav")
                       [ (lit "Content-Disposition",
                          lit "attachment; filename=speech.wav") ]))
        | Raise (HTTPException c d) => Ret (Raise (HTTPException c d))
        | Raise e => Ret (Raise (HTTPException 500 (exn_str e)))
        end
  end.

(** [GET /health]. *)
Definition health_check (env : os_env) (provider : option TTSProvider) : health :=
  {| status := match provider with
               | Some _ => lit "healthy"
               | None => lit "degraded"
               end;
     provider := match provider with
                 | Some p => Some (name p)
                 | None => None
                 end;
     provider_configured := match provider with
                            | Some p => is_configured p env
                            | None => false
                            end |}.

End TTS.

(* ===================================================================== *)
(** ** revai-adapter/main.py *)
(* ===================================================================== *)

Module STT.

(** The abstract base class [STTProvider].  [transcribe] is annotated to
    return [str]; what it returns is whatever the decoded JSON holds. *)
Record STTProvider : Type := mkProvider {
  name : pystr;
  is_configured : os_env -> bool;
  transcribe : pybytes -> pystr -> pystr -> itree ioE (result json) }.

Module GroqProvider.

Record self : Type := mkSelf {
  api_key : option pystr;
  model : pystr;
  base_url : pystr }.

Definition init (env : os_env) : self :=
  {| api_key := getenv env (lit "GROQ_API_KEY");
     model := getenv_or env (lit "GROQ_STT_MODEL") (lit "whisper-large-v3-turbo");
     base_url := lit "https://api.groq.com/openai/v1" |}.

Definition name (s : self) : pystr := lit "Groq (" ++ model s ++ lit ")".

Definition is_configured (s : self) (env : os_env) : bool :=
  opt_truthy (api_key s).

Definition transcribe (s : self) (audio_content : pybytes)
    (filename content_type : pystr) : itree ioE (result json) :=
  response <-? ITree.trigger
    (HttpPost (base_url s ++ lit "/audio/transcriptions")
       [ (lit "Authorization", bearer (lit "Bearer ") (api_key s)) ]
       (Multipart (lit "file") filename audio_content content_type
          [ (lit "model", JStr (model s));
            (lit "language", JStr (lit "en"));
            (lit "response_format", JStr (lit "json")) ])) ;;;
  if negb (status_code response =? 200)%Z then
    Ret (Raise (upstream_error response))
  else
    result <-? pureR (response_json response) ;;;
    pureR (json_get result (lit "text") (JStr [])).

Definition make (env : os_env) : STTProvider :=
  let s := init env in
  mkProvider (name s) (is_configured s) (transcribe s).

End GroqProvider.

Module RevAIProvider.

Record self : Type := mkSelf {
  api_key : option pystr;
  base_url : pystr }.

Definition init (env : os_env) : self :=
  {| api_key := getenv env (lit "REV_AI_ACCESS_TOKEN");
     base_url := lit "https://api.rev.ai/speechtotext/v1" |}.

Definition name (s : self) : pystr := lit "Rev.ai".

Definition is_configured (s : self) (env : os_env) : bool :=
  opt_truthy (api_key s).

Definition headers (s : self) : dict pystr :=
  [ (lit "Authorization", bearer (lit "Bearer ") (api_key s)) ].

Definition data : dict json :=
  [ (lit "transcriber", JStr (lit "low_cost"));
    (lit "language", JStr (lit "en"));
    (lit "skip_punctuation", JBool false);
    (lit "filter_profanity", JBool false);
    (lit "remove_disfluencies", JBool true);
    (lit "remove_atmospherics", JBool true);
    (lit "speakers_count", JNum 1) ].

(** [for x in j]: lists give their items, strings their characters,
    objects their keys. *)
Definition json_iter (j : json) : result (list json) :=
  match j with
  | JArr items => Ok items
  | JStr s => Ok (List.map (fun c => JStr [c]) s)
  | JObj fields => Ok (List.map (fun kv => JStr (fst kv)) fields)
  | _ => Raise (TypeError (lit "object is not iterable"))
  end.

(** The inner [for element in ... if ...] of the comprehension. *)
Fixpoint text_values (elements : list json) : result (list json) :=
  match elements with
  | [] => Ok []
  | element :: rest =>
      let? ty := json_get element (lit "type") JNull in
      if json_is_str ty (lit "text") then
        let? v := json_item element (lit "value") in
        let? vs := text_values rest in
        Ok (v :: vs)
      else text_values rest
  end.

(** The outer [for monolog in ...] of the comprehension. *)
Fixpoint monologue_values (monologues : list json) : result (list json) :=
  match monologues with
  | [] => Ok []
  | monolog :: rest =>
      let? els := json_get monolog (lit "elements") (JArr []) in
      let? elements := json_iter els in
      let? vs := text_values elements in
      let? ws := monologue_values rest in
      Ok (vs ++ ws)
  end.

(** The argument of [" ".join]: every item has to be a string. *)
Fixpoint str_items (values : list json) : result (list pystr) :=
  match values with
  | [] => Ok []
  | JStr s :: rest =>
      let? ss := str_items rest in
      Ok (s :: ss)
  | _ :: _ => Raise (TypeError (lit "sequence item: expected str instance"))
  end.

(** "Extract text from monologues". *)
Definition extract_text (transcript_data : json) : result pystr :=
  let? ms := json_get transcript_data (lit "monologues") (JArr []) in
  let? monologues := json_iter ms in
  let? values := monologue_values monologues in
  let? parts := str_items values in
  Ok (join (lit " ") parts).

Section Methods.
Context {rt : PyRuntime}.

Definition job_url (s : self) (job_id : json) : pystr :=
  base_url s ++ lit "/jobs/" ++ format_value job_id.

(** One round of the [while True] loop; the loop state is
    [poll_count]. *)
Definition poll_once (s : self) (job_id : json) (poll_count : nat)
  : itree ioE (result (nat + json)) :=
  status_response <-? ITree.trigger (HttpGet (job_url s job_id) (headers s)) ;;;
  let poll_count := S poll_count in
  status_data <-? pureR (response_json status_response) ;;;
  st <-? pureR (json_item status_data (lit "status")) ;;;
  if json_is_str st (lit "transcribed") then
    transcript_response <-? ITree.trigger
      (HttpGet (job_url s job_id ++ lit "/transcript")
         (headers s ++
          [ (lit "Accept", lit "application/vnd.rev.transcript.v1.0+json") ])) ;;;
    transcript_data <-? pureR (response_json transcript_response) ;;;
    text <-? pureR (extract_text transcript_data) ;;;
    Ret (Ok (inr (JStr text)))
  else if json_is_str st (lit "failed") then
    Ret (Raise (HTTPException 500 (lit "Rev.ai transcription failed")))
  else
    ITree.trigger (Sleep 1000) ;;
    Ret (Ok (inl poll_count)).

Definition transcribe (s : self) (audio_content : pybytes)
    (filename content_type : pystr) : itree ioE (result json) :=
  response <-? ITree.trigger
    (HttpPost (base_url s ++ lit "/jobs") (headers s)
       (Multipart (lit "media") filename audio_content content_type data)) ;;;
  if negb (status_code response =? 200)%Z then
    Ret (Raise (upstream_error response))
  else
    created <-? pureR (response_json response) ;;;
    job_id <-? pureR (json_item created (lit "id")) ;;;
    while_true (poll_once s job_id) 0%nat.

Definition make (env : os_env) : STTProvider :=
  let s := init env in
  mkProvider (name s) (is_configured s) (transcribe s).
End Methods.

End RevAIProvider.

Module DeepgramProvider.

Record self : Type := mkSelf {
  api_key : option pystr;
  base_url : pystr }.

Definition init (env : os_env) : self :=
  {| api_key := getenv env (lit "DEEPGRAM_API_KEY");
     base_url := lit "https://api.deepgram.com/v1" |}.

Definition name (s : self) : pystr := lit "Deepgram".

Definition is_configured (s : self) (env : os_env) : bool :=
  opt_truthy (api_key s).

(** "Extract transcript from Deepgram response". *)
Definition extract_transcript : json -> result json := fun result =>
  let? results := json_get result (lit "results") (JObj []) in
  let? channels := json_get results (lit "channels") (JArr []) in
  if truthy channels then
    let? channel := json_first channels in
    let? alternatives := json_get channel (lit "alternatives") (JArr []) in
    if truthy alternatives then
      let? alternative := json_first alternatives in
      json_get alternative (lit "transcript") (JStr [])
    else Ok (JStr [])
  else Ok (JStr []).

Definition transcribe (s : self) (audio_content : pybytes)
    (filename content_type : pystr) : itree ioE (result json) :=
  response <-? ITree.trigger
    (HttpPost (base_url s ++ lit "/listen?model=nova-2&language=en")
       [ (lit "Authorization", bearer (lit "Token ") (api_key s));
         (lit "Content-Type", str_or content_type (lit "audio/wav")) ]
       (RawBody audio_content)) ;;;
  if negb (status_code response =? 200)%Z then
    Ret (Raise (upstream_error response))
  else
    result <-? pureR (response_json response) ;;;
    pureR (extract_transcript result).

Definition make (env : os_env) : STTProvider :=
  let s := init env in
  mkProvider (name s) (is_configured s) (transcribe s).

End DeepgramProvider.

Section Service.
Context {rt : PyRuntime}.

(** The registry: identifier and constructor, in the order of the dict
    literal. *)
Definition PROVIDERS : dict (os_env -> STTProvider) :=
  [ (lit "groq", GroqProvider.make);
    (lit "revai", RevAIProvider.make);
    (lit "deepgram", DeepgramProvider.make) ].

Definition get_provider (env : os_env) : result STTProvider :=
  let provider_name := str_lower (getenv_or env (lit "STT_PROVIDER") (lit "groq")) in
  match dict_get PROVIDERS provider_name with
  | None =>
      let available := join (lit ", ") (dict_keys PROVIDERS) in
      Raise (ValueError (lit "Unknown STT provider: " ++ provider_name
                           ++ lit ". Available: " ++ available))
  | Some cls =>
      let provider := cls env in
      if negb (is_configured provider env) then
        Raise (ValueError (lit "STT provider '" ++ provider_name
                             ++ lit "' is not configured. Check API key."))
      else Ok provider
  end.

(** The module-level [provider] after [startup]: a [ValueError] of
    [get_provider] is logged and leaves it [None]. *)
Definition startup (env : os_env) : option STTProvider :=
  match get_provider env with
  | Ok p => Some p
  | Raise _ => None
  end.
End Service.

(** The upload as FastAPI hands it over: [await file.read()],
    [file.filename], [file.content_type]. *)
Record UploadFile : Type := mkUpload {
  file_bytes : pybytes;
  filename : option pystr;
  content_type : option pystr }.

(** [POST /v1/audio/transcriptions], with the module-level [provider] as
    an argument; the answer is the JSON object returned. *)
Definition create_transcription (provider : option STTProvider) (file : UploadFile)
  : itree ioE (result json) :=
  match provider with
  | None =>
      Ret (Raise (HTTPException 500
        (lit "No STT provider configured. Set STT_PROVIDER and required API key.")))
  | Some p =>
      r <- transcribe p (file_bytes file)
             (opt_or (filename file) (lit "audio.wav"))
             (opt_or (content_type file) (lit "audio/wav")) ;;
      match r with
      | Ok text => Ret (Ok (JObj [ (lit "text", text) ]))
      | Raise (HTTPException c d) => Ret (Raise (HTTPException c d))
      | Raise e => Ret (Raise (HTTPException 500 (exn_str e)))
      end
  end.

(** [GET /health]. *)
Definition health_check (env : os_env) (provider : option STTProvider) : health :=
  {| status := lit "healthy";
     provider := match provider with
                 | Some p => Some (name p)
                 | None => None
                 end;
     provider_configured := match provider with
                            | Some p => is_configured p env
                            | None => false
                            end |}.

End STT.

(* ===================================================================== *)
(** ** Vocabulary of the statements *)
(* ===================================================================== *)

(** [returns t w w' r]: started in world [w], program [t] terminates in
    world [w'] with outcome [r]. *)
Definition returns {R} (t : itree ioE R) (w w' : world) (r : R) : Prop :=
  exec t w ≈ Ret (w', r).

(** The world once [cs] more calls were issued and the replies [rest]
    are left. *)
Definition advance (w : world) (rest : list (result response)) (cs : list call)
  : world :=
  mkWorld rest (calls w ++ cs) (disk w) (next_tmp w) (spawn w) (run w).

(** [n] rounds of the polling loop that found the job unfinished: a
    status poll, then a sleep of the fixed interval. *)
Fixpoint rounds (poll : call) (millis : N) (n : nat) : list call :=
  match n with
  | O => []
  | S n' => poll :: Slept millis :: rounds poll millis n'
  end.

(** The calls of a polling loop that ends at its [n+1]-th poll. *)
Definition poll_trace (poll : call) (millis : N) (n : nat) : list call :=
  rounds poll millis n ++ [poll].

(** How many GET requests a log holds. *)
Definition count_got (cs : list call) : nat :=
  length (filter (fun c => match c with Got _ _ => true | _ => false end) cs).

(** The ["status"] field of the reply to a status poll. *)
Definition status_of (r : response) : result json :=
  let? j := response_json r in json_item j (lit "status").

(** A reply to a status poll that is none of the [terminal] statuses. *)
Definition pending (terminal : list pystr) (r : response) : bool :=
  match status_of r with
  | Ok st => negb (existsb (json_is_str st) terminal)
  | Raise _ => false
  end.

(** A reply to a status poll with exactly this status. *)
Definition has_status (st : pystr) (r : response) : bool :=
  match status_of r with
  | Ok j => json_is_str j st
  | Raise _ => false
  end.

(** A reply that carries a decoded JSON object with an ["id"]. *)
Definition job_of (r : response) : result json :=
  let? j := response_json r in json_item j (lit "id").

(** The ["output"] and ["error"] fields of a prediction, as
    [ReplicateKokoroProvider.synthesize] reads them. *)
Definition output_of (r : response) : result json :=
  let? j := response_json r in json_item j (lit "output").

Definition error_of (r : response) : result json :=
  let? j := response_json r in json_get j (lit "error") (JStr (lit "Unknown error")).

(** The statuses that end each polling loop. *)
Definition kokoro_terminal : list pystr :=
  [lit "succeeded"; lit "failed"; lit "canceled"].

Definition revai_terminal : list pystr := [lit "transcribed"; lit "failed"].

(** The calls the Kokoro provider issues. *)
Definition kokoro_submit {rt : PyRuntime} (s : TTS.ReplicateKokoroProvider.self)
    (text voice : pystr) (speed : Q) : call :=
  Posted TTS.ReplicateKokoroProvider.predictions_url
    [ (lit "Authorization",
       bearer (lit "Bearer ") (TTS.ReplicateKokoroProvider.api_token s));
      (lit "Content-Type", lit "application/json") ]
    (JsonBody
       (JObj [ (lit "version", JStr (TTS.ReplicateKokoroProvider.version s));
               (lit "input",
                JObj [ (lit "text", JStr text);
                       (lit "voice",
                        JStr (TTS.ReplicateKokoroProvider.kokoro_voice s voice));
                       (lit "speed", JNum speed) ]) ])).

Definition kokoro_poll {rt : PyRuntime} (s : TTS.ReplicateKokoroProvider.self)
    (prediction_id : json) : call :=
  Got (TTS.ReplicateKokoroProvider.predictions_url ++ lit "/"
         ++ format_value prediction_id)
    [ (lit "Authorization",
       bearer (lit "Bearer ") (TTS.ReplicateKokoroProvider.api_token s)) ].

(** The calls the Rev.ai provider issues. *)
Definition revai_submit (s : STT.RevAIProvider.self) (audio_content : pybytes)
    (filename content_type : pystr) : call :=
  Posted (STT.RevAIProvider.base_url s ++ lit "/jobs") (STT.RevAIProvider.headers s)
    (Multipart (lit "media") filename audio_content content_type
       STT.RevAIProvider.data).

Definition revai_poll {rt : PyRuntime} (s : STT.RevAIProvider.self) (job_id : json)
  : call :=
  Got (STT.RevAIProvider.job_url s job_id) (STT.RevAIProvider.headers s).

Definition revai_fetch {rt : PyRuntime} (s : STT.RevAIProvider.self) (job_id : json)
  : call :=
  Got (STT.RevAIProvider.job_url s job_id ++ lit "/transcript")
    (STT.RevAIProvider.headers s ++
     [ (lit "Accept", lit "application/vnd.rev.transcript.v1.0+json") ]).

(** The text of a fetched transcript. *)
Definition transcript_of (r : response) : result pystr :=
  let? j := response_json r in STT.RevAIProvider.extract_text j.

(** The submissions of the two synchronous STT providers. *)
Definition groq_submit (s : STT.GroqProvider.self) (audio_content : pybytes)
    (filename content_type : pystr) : call :=
  Posted (STT.GroqProvider.base_url s ++ lit "/audio/transcriptions")
    [ (lit "Authorization", bearer (lit "Bearer ") (STT.GroqProvider.api_key s)) ]
    (Multipart (lit "file") filename audio_content content_type
       [ (lit "model", JStr (STT.GroqProvider.model s));
         (lit "language", JStr (lit "en"));
         (lit "response_format", JStr (lit "json")) ]).

Definition deepgram_submit (s : STT.DeepgramProvider.self) (audio_content : pybytes)
    (content_type : pystr) : call :=
  Posted (STT.DeepgramProvider.base_url s ++ lit "/listen?model=nova-2&language=en")
    [ (lit "Authorization", bearer (lit "Token ") (STT.DeepgramProvider.api_key s));
      (lit "Content-Type", str_or content_type (lit "audio/wav")) ]
    (RawBody audio_content).

(** A Deepgram body without a transcript: no channel, or a first channel
    without alternative, or a first alternative without the field.  A
    missing ["results"], ["channels"] or ["alternatives"] counts as
    empty. *)
Inductive lacks_transcript : json -> Prop :=
| no_channels body results :
    json_get body (lit "results") (JObj []) = Ok results ->
    json_get results (lit "channels") (JArr []) = Ok (JArr []) ->
    lacks_transcript body
| no_alternatives body results channel more :
    json_get body (lit "results") (JObj []) = Ok results ->
    json_get results (lit "channels") (JArr []) = Ok (JArr (channel :: more)) ->
    json_get channel (lit "alternatives") (JArr []) = Ok (JArr []) ->
    lacks_transcript body
| no_transcript_field body results channel more fields more' :
    json_get body (lit "results") (JObj []) = Ok results ->
    json_get results (lit "channels") (JArr []) = Ok (JArr (channel :: more)) ->
    json_get channel (lit "alternatives") (JArr [])
      = Ok (JArr (JObj fields :: more')) ->
    dict_get fields (lit "transcript") = None ->
    lacks_transcript body.

(** The model argument and the command line of [PiperProvider.synthesize]
    in world [w], when its temporary file is [tmp_path]. *)
Definition piper_model {rt : PyRuntime} (s : TTS.PiperProvider.self)
    (voice : pystr) (w : world) : pystr :=
  let '(model_path, piper_voice) := TTS.PiperProvider._get_voice_path s voice in
  match disk w model_path with Some _ => model_path | None => piper_voice end.

Definition piper_cmd {rt : PyRuntime} (s : TTS.PiperProvider.self)
    (voice : pystr) (w : world) (tmp_path : pystr) : list pystr :=
  [ lit "piper"; lit "--model"; piper_model s voice w;
    lit "--output_file"; tmp_path ].

(** The disk right after the temporary file was created. *)
Definition disk_with_tmp (w : world) (tmp_path : pystr) : files :=
  write_file tmp_path (Some []) (disk w).

(** *** Structured transcripts *)

(** A transcript as the Rev.ai documentation describes it: monologues
    (one per stretch of one speaker) of elements, each element of a type
    (["text"], ["punct"], ...) with a value, and whatever further fields
    (timestamps, confidence). *)
Record element : Type := mkElement {
  el_type : pystr;
  el_value : pystr;
  el_extra : dict json }.

Record monologue : Type := mkMonologue {
  speaker : Q;
  elements : list element }.

Definition transcript := list monologue.

(** The JSON document of a transcript. *)
Definition element_json (e : element) : json :=
  JObj ((lit "type", JStr (el_type e)) :: (lit "value", JStr (el_value e))
          :: el_extra e).

Definition monologue_json (m : monologue) : json :=
  JObj [ (lit "speaker", JNum (speaker m));
         (lit "elements", JArr (List.map element_json (elements m))) ].

Definition transcript_json (t : transcript) : json :=
  JObj [ (lit "monologues", JArr (List.map monologue_json t)) ].

(** The plain text of a transcript, in the words of the specification:
    every element of type ["text"] of every monologue, in order, joined
    by single spaces. *)
Definition is_text (e : element) : bool := str_eqb (el_type e) (lit "text").

Definition text_elements (t : transcript) : list pystr :=
  List.map el_value (filter is_text (concat (List.map elements t))).

Definition reconstructed (t : transcript) : pystr :=
  join (lit " ") (text_elements t).

(** *** Concrete inputs for the examples *)

(** A runtime that is exact on ASCII text. *)
Definition ascii_lower (s : pystr) : pystr :=
  List.map (fun c => if ((65 <=? c) && (c <=? 90))%N then (c + 32)%N else c) s.

Definition ascii_encode (s : pystr) : result pybytes :=
  if forallb (fun c => (c <? 128)%N) s then
    Ok (List.map (fun c => match Byte.of_N c with
                           | Some b => b
                           | None => Byte.x00
                           end) s)
  else Raise (PyError (lit "UnicodeEncodeError") (lit "not ASCII")).

Definition ascii_decode (b : pybytes) : result pystr :=
  if forallb (fun c => (Byte.to_N c <? 128)%N) b then Ok (List.map Byte.to_N b)
  else Raise (PyError (lit "UnicodeDecodeError") (lit "not ASCII")).

Definition ascii_runtime : PyRuntime :=
  {| str_lower := ascii_lower;
     format_value := fun j => match j with
                              | JStr s => s
                              | JNull => lit "None"
                              | JBool true => lit "True"
                              | JBool false => lit "False"
                              | _ => lit "?"
                              end;
     utf8_encode := ascii_encode;
     utf8_decode := ascii_decode;
     path_join := fun dir name => dir ++ lit "/" ++ name |}.

(** An environment with nothing set and no [piper] on the path. *)
Definition bare_env : os_env := mkEnv (fun _ => None) false.

(** A world where nothing answers: no reply is scripted, the disk is
    empty, every command starts and exits with status 0. *)
Definition quiet_world : world :=
  mkWorld [] [] (fun _ => None) (Ok (lit "/tmp/tmpq0.wav"))
    (fun _ => Ok tt) (fun _ _ d => (d, Ok (mkCompleted 0 [] []))).

Definition sample_request : TTS.SpeechRequest :=
  TTS.mkSpeechRequest (lit "tts-1") (lit "Hello") (lit "nova") (Some (lit "wav"))
    (Some 1%Q).

Definition sample_upload : STT.UploadFile :=
  STT.mkUpload [Byte.x52; Byte.x49; Byte.x46; Byte.x46] (Some (lit "a.wav"))
    (Some (lit "audio/wav")).

(** A request whose input is two spaces, a tab and a line feed. *)
Definition blank_request : TTS.SpeechRequest :=
  TTS.mkSpeechRequest (lit "tts-1") [32; 32; 9; 10]%N (lit "nova") None None.

(** A provider whose [synthesize] would answer at once. *)
Definition canned_provider : TTS.TTSProvider :=
  TTS.mkProvider (lit "Canned") (fun _ => true)
    (fun _ _ _ => Ret (Ok [Byte.x52; Byte.x49; Byte.x46; Byte.x46])).

(** An environment that selects an unregistered TTS backend. *)
Definition espeak_env : os_env :=
  mkEnv (fun k => if str_eqb k (lit "TTS_PROVIDER") then Some (lit "Espeak")
                  else None) true.

(** Replies of a scripted Replicate backend. *)
Definition prediction (fields : dict json) : json :=
  JObj ((lit "id", JStr (lit "p1")) :: fields).

Definition reply_created : response :=
  mkResponse 201 (lit "created") []
    (Some (prediction [ (lit "status", JStr (lit "starting")) ])).

Definition reply_processing : response :=
  mkResponse 200 (lit "processing") []
    (Some (prediction [ (lit "status", JStr (lit "processing")) ])).

Definition reply_succeeded : response :=
  mkResponse 200 (lit "succeeded") []
    (Some (prediction [ (lit "status", JStr (lit "succeeded"));
                        (lit "output", JStr (lit "https://cdn.example/out.wav")) ])).

Definition sample_audio : pybytes := [Byte.x52; Byte.x49; Byte.x46; Byte.x46].

Definition reply_audio : response := mkResponse 200 [] sample_audio None.

Definition reply_unauthorized : response :=
  mkResponse 401 (lit "Unauthenticated") [] None.

(** A world whose backend answers with the given replies. *)
Definition scripted (rs : list response) : world :=
  mkWorld (List.map Ok rs) [] (fun _ => None) (Ok (lit "/tmp/tmpq0.wav"))
    (fun _ => Ok tt) (fun _ _ d => (d, Ok (mkCompleted 0 [] []))).

(** Replies of a scripted Rev.ai backend. *)
Definition job (st : string) : response :=
  mkResponse 200 [] []
    (Some (JObj [ (lit "id", JStr (lit "j1")); (lit "status", JStr (lit st)) ])).

Definition hello_transcript : transcript :=
  [ mkMonologue 0 [ mkElement (lit "text") (lit "Hello") [];
                    mkElement (lit "punct") (lit " ") [];
                    mkElement (lit "text") (lit "world") [] ];
    mkMonologue 1 [ mkElement (lit "text") (lit "foo") [];
                    mkElement (lit "text") (lit "bar") [];
                    mkElement (lit "punct") (lit ".") [] ] ].

Definition reply_transcript : response :=
  mkResponse 200 [] [] (Some (transcript_json hello_transcript)).

(** A reply of status 200 with an empty JSON object. *)
Definition reply_empty_object : response := mkResponse 200 (lit "{}") [] (Some (JObj [])).

(** A world in which [piper] writes the sample audio to the file named
    after [--output_file] and exits with status 0. *)
Definition piper_world : world :=
  mkWorld [] [] (fun _ => None) (Ok (lit "/tmp/tmpq0.wav"))
    (fun _ => Ok tt)
    (fun cmd _ d => (write_file (nth 4 cmd []) (Some sample_audio) d,
                     Ok (mkCompleted 0 [] []))).

(* ===================================================================== *)
(** ** The listing routes *)
(* ===================================================================== *)

(** The JSON object [GET /providers] answers with: for each registered
    identifier the ["name"] and ["configured"] of a provider constructed
    for the occasion, and the name of the active provider. *)
Module Listing.

Record entry : Type := mkEntry {
  name : pystr;
  configured : bool }.

Record t : Type := mk {
  current : option pystr;
  available : dict entry }.

End Listing.

Module TTSRoutes.

(** [GET /providers] of the TTS service: [cls()] reads the environment
    of the moment. *)
Definition list_providers {rt : PyRuntime} (env : os_env)
    (provider : option TTS.TTSProvider) : Listing.t :=
  let result :=
    List.map (fun item : pystr * (os_env -> TTS.TTSProvider) =>
                let '(name, cls) := item in
                let instance := cls env in
                (name, Listing.mkEntry (TTS.name instance)
                         (TTS.is_configured instance env)))
      TTS.PROVIDERS in
  {| Listing.current := match provider with
                        | Some p => Some (TTS.name p)
                        | None => None
                        end;
     Listing.available := result |}.

End TTSRoutes.

Module STTRoutes.

(** [GET /providers] of the STT service. *)
Definition list_providers {rt : PyRuntime} (env : os_env)
    (provider : option STT.STTProvider) : Listing.t :=
  let result :=
    List.map (fun item : pystr * (os_env -> STT.STTProvider) =>
                let '(name, cls) := item in
                let instance := cls env in
                (name, Listing.mkEntry (STT.name instance)
                         (STT.is_configured instance env)))
      STT.PROVIDERS in
  {| Listing.current := match provider with
                        | Some p => Some (STT.name p)
                        | None => None
                        end;
     Listing.available := result |}.

End STTRoutes.


(** The upload's file name and content type as the transcription
    endpoint hands them to the provider. *)
Definition upload_filename (file : STT.UploadFile) : pystr :=
  opt_or (STT.filename file) (lit "audio.wav").

Definition upload_content_type (file : STT.UploadFile) : pystr :=
  opt_or (STT.content_type file) (lit "audio/wav").

(** An environment that sets Piper's default voice and nothing else. *)
Definition thorsten_env : os_env :=
  mkEnv (fun k => if str_eqb k (lit "PIPER_DEFAULT_VOICE")
                  then Some (lit "de_DE-thorsten-high") else None) true.


(** An environment that holds a Groq key and nothing else. *)
Definition groq_env : os_env :=
  mkEnv (fun k => if str_eqb k (lit "GROQ_API_KEY") then Some (lit "gsk")
                  else None) false.

(** A backend that accepts the submission, answers one poll and then
    lets the client time out. *)
Definition read_timeout : exn := PyError (lit "ReadTimeout") (lit "timed out").

Definition timeout_world : world :=
  mkWorld [Ok reply_created; Ok reply_processing; Raise read_timeout] []
    (fun _ => None) (Ok (lit "/tmp/tmpq0.wav"))
    (fun _ => Ok tt) (fun _ _ d => (d, Ok (mkCompleted 0 [] []))).

(** An accepting reply whose body has no ["id"]. *)
Definition reply_created_bare : response :=
  mkResponse 201 (lit "{}") [] (Some (JObj [])).

(** An error reply in place of the transcript. *)
Definition reply_not_found : response :=
  mkResponse 404 (lit "not found") []
    (Some (JObj [ (lit "title", JStr (lit "could not find job")) ])).

(** A transcript that holds punctuation only. *)
Definition dots_transcript : transcript :=
  [ mkMonologue 0 [ mkElement (lit "punct") (lit ".") [] ];
    mkMonologue 1 [ mkElement (lit "punct") (lit "...") [] ] ].

(** A Groq reply and a Deepgram reply that carry a text. *)
Definition reply_text : response :=
  mkResponse 200 [] [] (Some (JObj [ (lit "text", JStr (lit "hi")) ])).

Definition deepgram_body : json :=
  JObj [ (lit "results",
          JObj [ (lit "channels",
                  JArr [ JObj [ (lit "alternatives",
                                 JArr [ JObj [ (lit "transcript", JStr (lit "hi"));
                                               (lit "confidence", JNum 1) ];
                                        JObj [ (lit "transcript",
                                                JStr (lit "high")) ] ]) ] ]) ]) ].

Definition reply_deepgram : response := mkResponse 200 [] [] (Some deepgram_body).

(* ===================================================================== *)
(** ** Facts about the Python values *)
(* ===================================================================== *)

Lemma str_eqb_spec a b : reflect (a = b) (str_eqb a b).
Proof.
  revert b; induction a as [|x a IH]; intros [|y b]; simpl;
    try (constructor; congruence).
  destruct (N.eqb_spec x y) as [->|Hne]; simpl.
  - destruct (IH b) as [->|Hne]; constructor; congruence.
  - constructor; congruence.
Qed.

Lemma str_eqb_refl a : str_eqb a a = true.
Proof. destruct (str_eqb_spec a a); congruence. Qed.

Lemma str_eqb_neq a b : a <> b -> str_eqb a b = false.
Proof. destruct (str_eqb_spec a b); congruence. Qed.

(** A key that is not among the keys of a dict is not found. *)
Lemma dict_get_None {V} (d : dict V) k :
  dict_get d k = None <-> ~ In k (dict_keys d).
Proof.
  induction d as [|[k' v] d IH]; simpl.
  - tauto.
  - destruct (str_eqb_spec k' k) as [->|Hne].
    + split; [discriminate | tauto].
    + rewrite IH. tauto.
Qed.

(* ===================================================================== *)
(** ** Running programs: rules for [exec] *)
(* ===================================================================== *)

Lemma returns_ret {R} (r : R) w : returns (Ret r) w w r.
Proof. unfold returns, exec. rewrite interp_state_ret. reflexivity. Qed.

Lemma returns_trigger {T} (e : ioE T) w :
  returns (ITree.trigger e) w (fst (step e w)) (snd (step e w)).
Proof.
  unfold returns, exec. rewrite interp_state_trigger. unfold handle.
  destruct (step e w); reflexivity.
Qed.

Lemma returns_bind {A B} (t : itree ioE A) (k : A -> itree ioE B) w w1 a w2 b :
  returns t w w1 a -> returns (k a) w1 w2 b -> returns (ITree.bind t k) w w2 b.
Proof.
  unfold returns, exec. intros Ht Hk.
  rewrite interp_state_bind, Ht, bind_ret_l. cbn. exact Hk.
Qed.

(** A program has at most one outcome. *)
Lemma returns_unique {R} (t : itree ioE R) w w1 r1 w2 r2 :
  returns t w w1 r1 -> returns t w w2 r2 -> w1 = w2 /\ r1 = r2.
Proof.
  unfold returns. intros H1 H2. rewrite H1 in H2.
  apply eutt_inv_Ret in H2. inversion H2; auto.
Qed.

Lemma returns_bindR_ok {A B} (t : itree ioE (result A))
    (k : A -> itree ioE (result B)) w w1 a w2 r :
  returns t w w1 (Ok a) -> returns (k a) w1 w2 r -> returns (bindR t k) w w2 r.
Proof. intros Ht Hk. unfold bindR. eapply returns_bind; [exact Ht | exact Hk]. Qed.

Lemma returns_bindR_raise {A B} (t : itree ioE (result A))
    (k : A -> itree ioE (result B)) w w1 e :
  returns t w w1 (Raise e) -> returns (bindR t k) w w1 (Raise e).
Proof.
  intros Ht. unfold bindR. eapply returns_bind; [exact Ht | apply returns_ret].
Qed.

Lemma returns_pureR_ok {A B} (r : result A) (k : A -> itree ioE (result B))
    w a w2 b :
  r = Ok a -> returns (k a) w w2 b -> returns (bindR (pureR r) k) w w2 b.
Proof.
  intros -> Hk. eapply returns_bindR_ok; [apply returns_ret | exact Hk].
Qed.

Lemma returns_pureR_raise {A B} (r : result A) (k : A -> itree ioE (result B))
    w e :
  r = Raise e -> returns (bindR (pureR r) k) w w (Raise e).
Proof. intros ->. apply returns_bindR_raise, returns_ret. Qed.

(** The loop goes round once more. *)
Lemma returns_while_again {S A} (body : S -> itree ioE (result (S + A)))
    s s' w w1 w2 r :
  returns (body s) w w1 (Ok (inl s')) ->
  returns (while_true body s') w1 w2 r ->
  returns (while_true body s) w w2 r.
Proof.
  unfold returns, exec, while_true. intros Hb Hrest.
  rewrite unfold_iter, bind_bind, interp_state_bind, Hb, bind_ret_l. cbn.
  rewrite bind_ret_l, interp_state_tau, tau_eutt. exact Hrest.
Qed.

(** The loop body returns. *)
Lemma returns_while_done {S A} (body : S -> itree ioE (result (S + A)))
    s w w1 a :
  returns (body s) w w1 (Ok (inr a)) ->
  returns (while_true body s) w w1 (Ok a).
Proof.
  unfold returns, exec, while_true. intros Hb.
  rewrite unfold_iter, bind_bind, interp_state_bind, Hb, bind_ret_l. cbn.
  rewrite bind_ret_l, interp_state_ret. reflexivity.
Qed.

(** The loop body raises. *)
Lemma returns_while_raise {S A} (body : S -> itree ioE (result (S + A)))
    s w w1 e :
  returns (body s) w w1 (Raise e) ->
  returns (while_true body s) w w1 (Raise e).
Proof.
  unfold returns, exec, while_true. intros Hb.
  rewrite unfold_iter, bind_bind, interp_state_bind, Hb, bind_ret_l. cbn.
  rewrite bind_ret_l, interp_state_ret. reflexivity.
Qed.

Lemma returns_ret_eq {R} (r r' : R) w w' :
  w = w' -> r = r' -> returns (Ret r) w w' r'.
Proof. intros -> ->. apply returns_ret. Qed.

Lemma advance_advance w r1 c1 r2 c2 :
  advance (advance w r1 c1) r2 c2 = advance w r2 (c1 ++ c2).
Proof. unfold advance; simpl. now rewrite app_assoc. Qed.

(** An HTTP call consumes the next reply and is logged. *)
Lemma returns_post w url h b r rest :
  replies w = r :: rest ->
  returns (ITree.trigger (HttpPost url h b)) w (advance w rest [Posted url h b]) r.
Proof.
  intros Hw.
  pose proof (returns_trigger (HttpPost url h b) w) as H.
  simpl in H. unfold round_trip in H. rewrite Hw in H. exact H.
Qed.

Lemma returns_get w url h r rest :
  replies w = r :: rest ->
  returns (ITree.trigger (HttpGet url h)) w (advance w rest [Got url h]) r.
Proof.
  intros Hw.
  pose proof (returns_trigger (HttpGet url h) w) as H.
  simpl in H. unfold round_trip in H. rewrite Hw in H. exact H.
Qed.

Lemma returns_sleep w ms :
  returns (ITree.trigger (Sleep ms)) w (advance w (replies w) [Slept ms]) tt.
Proof. exact (returns_trigger (Sleep ms) w). Qed.

Lemma status_of_inv r st :
  status_of r = Ok st ->
  exists j, response_json r = Ok j /\ json_item j (lit "status") = Ok st.
Proof.
  unfold status_of, and_then. destruct (response_json r) as [j|e]; [|discriminate].
  intros H. exists j. auto.
Qed.

Lemma pending_inv terminal r :
  pending terminal r = true ->
  exists j st, response_json r = Ok j /\ json_item j (lit "status") = Ok st
               /\ forall t, In t terminal -> json_is_str st t = false.
Proof.
  unfold pending. destruct (status_of r) as [st|e] eqn:Hst; [|discriminate].
  intros Hn. apply status_of_inv in Hst as [j [Hj Hi]].
  exists j, st. repeat split; auto.
  intros t Ht. apply negb_true_iff in Hn.
  destruct (json_is_str st t) eqn:E; [|reflexivity].
  assert (existsb (json_is_str st) terminal = true)
    by (apply existsb_exists; eauto).
  congruence.
Qed.

Lemma has_status_inv st r :
  has_status st r = true ->
  exists j sj, response_json r = Ok j /\ json_item j (lit "status") = Ok sj
               /\ json_is_str sj st = true.
Proof.
  unfold has_status. destruct (status_of r) as [sj|e] eqn:Hst; [|discriminate].
  intros H. apply status_of_inv in Hst as [j [Hj Hi]]. eauto.
Qed.

Lemma job_of_inv r id :
  job_of r = Ok id ->
  exists j, response_json r = Ok j /\ json_item j (lit "id") = Ok id.
Proof.
  unfold job_of, and_then. destruct (response_json r) as [j|e]; [|discriminate].
  intros H. exists j. auto.
Qed.

Lemma json_is_str_excl j a b :
  json_is_str j a = true -> a <> b -> json_is_str j b = false.
Proof.
  destruct j; simpl; try discriminate.
  intros Ha Hne. destruct (str_eqb_spec s a) as [->|]; [|discriminate].
  now apply str_eqb_neq.
Qed.

Lemma count_got_app a b : count_got (a ++ b) = (count_got a + count_got b)%nat.
Proof. unfold count_got. now rewrite filter_app, length_app. Qed.

Lemma count_got_rounds u h ms n : count_got (rounds (Got u h) ms n) = n.
Proof. induction n; simpl; [reflexivity|]. unfold count_got in *. simpl. now f_equal. Qed.

(** A polling loop that ends at its [n+1]-th poll issued [n+1] polls and
    slept [n] intervals. *)
Lemma poll_trace_count u h ms n : count_got (poll_trace (Got u h) ms n) = S n.
Proof.
  unfold poll_trace. rewrite count_got_app, count_got_rounds.
  unfold count_got. simpl. lia.
Qed.

(** The rounds of a polling loop over replies that leave the job
    unfinished: every such reply costs one poll and one sleep, and the
    loop is then where it was, with the remaining replies. *)
Lemma returns_while_pending {A} (body : nat -> itree ioE (result (nat + A)))
    (poll : call) (ms : N) (P : response -> bool) :
  (forall k w r rest, replies w = Ok r :: rest -> P r = true ->
     returns (body k) w (advance w rest [poll; Slept ms]) (Ok (inl (S k)))) ->
  forall pend, forallb P pend = true ->
  forall k w rest w' out,
    replies w = List.map Ok pend ++ rest ->
    returns (while_true body (k + length pend))
            (advance w rest (rounds poll ms (length pend))) w' out ->
    returns (while_true body k) w w' out.
Proof.
  intros Hstep pend. induction pend as [|r pend IH]; intros Hall k w rest w' out Hw Hfin.
  - simpl in *. rewrite Nat.add_0_r in Hfin.
    replace (advance w rest []) with w in Hfin; [exact Hfin|].
    destruct w; unfold advance; simpl in *. rewrite app_nil_r. congruence.
  - simpl in Hall. apply andb_true_iff in Hall as [Hr Hall].
    eapply returns_while_again.
    + exact (Hstep k w r (List.map Ok pend ++ rest) Hw Hr).
    + apply (IH Hall (S k) _ rest); [reflexivity|].
      rewrite advance_advance. simpl in Hfin.
      replace (S k + length pend)%nat with (k + S (length pend))%nat by lia.
      exact Hfin.
Qed.

Lemma returns_conv {R} (t : itree ioE R) w w1 w2 r :
  returns t w w1 r -> w1 = w2 -> returns t w w2 r.
Proof. intros H <-. exact H. Qed.

Ltac same_world :=
  repeat rewrite advance_advance; unfold poll_trace; simpl;
  repeat rewrite <- app_assoc; simpl; reflexivity.

(* ===================================================================== *)
(** ** The polling loops *)
(* ===================================================================== *)

Section KokoroPolling.
Context {rt : PyRuntime}.
Import TTS.ReplicateKokoroProvider.
Variables (s : self) (prediction_id : json).

(** An unfinished prediction: one poll, one sleep of 0.5 s, and round
    again. *)
Lemma kokoro_round k w r rest :
  replies w = Ok r :: rest -> pending kokoro_terminal r = true ->
  returns (poll_once s prediction_id k) w
    (advance w rest [kokoro_poll s prediction_id; Slept 500]) (Ok (inl (S k))).
Proof.
  intros Hw Hp. apply pending_inv in Hp as [j [st [Hj [Hst Hno]]]].
  unfold poll_once, poll_prediction.
  eapply returns_bindR_ok; [apply returns_get; exact Hw|].
  eapply returns_pureR_ok; [exact Hj|].
  eapply returns_pureR_ok; [exact Hst|].
  rewrite !Hno by (unfold kokoro_terminal; simpl; tauto).
  eapply returns_bind; [apply returns_sleep|].
  apply returns_ret_eq; [|reflexivity]. unfold kokoro_poll. same_world.
Qed.

(** A failed prediction ends the loop at this poll. *)
Lemma kokoro_failed k w r rest :
  replies w = Ok r :: rest -> has_status (lit "failed") r = true ->
  exists err, error_of r = Ok err /\
    returns (poll_once s prediction_id k) w
      (advance w rest [kokoro_poll s prediction_id])
      (Raise (HTTPException 500 (lit "TTS failed: " ++ format_value err))).
Proof.
  intros Hw Hs. apply has_status_inv in Hs as [j [st [Hj [Hst Hf]]]].
  assert (Herr : exists err, json_get j (lit "error") (JStr (lit "Unknown error")) = Ok err).
  { destruct j; simpl in Hst; try discriminate. simpl.
    destruct (dict_get fields (lit "error")); eauto. }
  destruct Herr as [err Herr]. exists err. split.
  { unfold error_of, and_then. now rewrite Hj. }
  unfold poll_once, poll_prediction.
  eapply returns_bindR_ok; [apply returns_get; exact Hw|].
  eapply returns_pureR_ok; [exact Hj|].
  eapply returns_pureR_ok; [exact Hst|].
  rewrite (json_is_str_excl st Hf (b := lit "succeeded")) by discriminate.
  rewrite Hf.
  eapply returns_pureR_ok; [exact Herr|].
  apply returns_ret.
Qed.

(** A canceled prediction ends the loop at this poll. *)
Lemma kokoro_canceled k w r rest :
  replies w = Ok r :: rest -> has_status (lit "canceled") r = true ->
  returns (poll_once s prediction_id k) w
    (advance w rest [kokoro_poll s prediction_id])
    (Raise (HTTPException 500 (lit "TTS prediction was canceled"))).
Proof.
  intros Hw Hs. apply has_status_inv in Hs as [j [st [Hj [Hst Hf]]]].
  unfold poll_once, poll_prediction.
  eapply returns_bindR_ok; [apply returns_get; exact Hw|].
  eapply returns_pureR_ok; [exact Hj|].
  eapply returns_pureR_ok; [exact Hst|].
  rewrite (json_is_str_excl st Hf (b := lit "succeeded")) by discriminate.
  rewrite (json_is_str_excl st Hf (b := lit "failed")) by discriminate.
  rewrite Hf. apply returns_ret.
Qed.

(** A succeeded prediction: the audio is fetched from the output URL;
    it is returned when that fetch answers 200. *)
Lemma kokoro_succeeded k w r u audio rest :
  replies w = Ok r :: Ok audio :: rest ->
  has_status (lit "succeeded") r = true ->
  output_of r = Ok (JStr u) ->
  returns (poll_once s prediction_id k) w
    (advance w rest [kokoro_poll s prediction_id; Got u []])
    (if (status_code audio =? 200)%Z then Ok (inr (content audio))
     else Raise (HTTPException 500 (lit "Failed to download audio"))).
Proof.
  intros Hw Hs Hout. apply has_status_inv in Hs as [j [st [Hj [Hst Hf]]]].
  unfold output_of, and_then in Hout. rewrite Hj in Hout.
  unfold poll_once, poll_prediction.
  eapply returns_bindR_ok; [apply returns_get; exact Hw|].
  eapply returns_pureR_ok; [exact Hj|].
  eapply returns_pureR_ok; [exact Hst|].
  rewrite Hf.
  eapply returns_pureR_ok; [exact Hout|].
  eapply returns_bindR_ok; [apply returns_get; reflexivity|].
  destruct (status_code audio =? 200)%Z; simpl;
    (apply returns_ret_eq; [|reflexivity]); unfold kokoro_poll; same_world.
Qed.
End KokoroPolling.

Section RevAIPolling.
Context {rt : PyRuntime}.
Import STT.RevAIProvider.
Variables (s : self) (job_id : json).

(** An unfinished job: one poll, one sleep of 1 s, and round again. *)
Lemma revai_round k w r rest :
  replies w = Ok r :: rest -> pending revai_terminal r = true ->
  returns (poll_once s job_id k) w
    (advance w rest [revai_poll s job_id; Slept 1000]) (Ok (inl (S k))).
Proof.
  intros Hw Hp. apply pending_inv in Hp as [j [st [Hj [Hst Hno]]]].
  unfold poll_once.
  eapply returns_bindR_ok; [apply returns_get; exact Hw|].
  eapply returns_pureR_ok; [exact Hj|].
  eapply returns_pureR_ok; [exact Hst|].
  rewrite !Hno by (unfold revai_terminal; simpl; tauto).
  eapply returns_bind; [apply returns_sleep|].
  apply returns_ret_eq; [|reflexivity]. unfold revai_poll. same_world.
Qed.

(** A failed job ends the loop at this poll. *)
Lemma revai_failed k w r rest :
  replies w = Ok r :: rest -> has_status (lit "failed") r = true ->
  returns (poll_once s job_id k) w (advance w rest [revai_poll s job_id])
    (Raise (HTTPException 500 (lit "Rev.ai transcription failed"))).
Proof.
  intros Hw Hs. apply has_status_inv in Hs as [j [st [Hj [Hst Hf]]]].
  unfold poll_once.
  eapply returns_bindR_ok; [apply returns_get; exact Hw|].
  eapply returns_pureR_ok; [exact Hj|].
  eapply returns_pureR_ok; [exact Hst|].
  rewrite (json_is_str_excl st Hf (b := lit "transcribed")) by discriminate.
  rewrite Hf. apply returns_ret.
Qed.

(** A transcribed job: the transcript is fetched and its text
    returned. *)
Lemma revai_transcribed k w r tr rest :
  replies w = Ok r :: Ok tr :: rest ->
  has_status (lit "transcribed") r = true ->
  returns (poll_once s job_id k) w
    (advance w rest [revai_poll s job_id; revai_fetch s job_id])
    match transcript_of tr with
    | Ok t => Ok (inr (JStr t))
    | Raise e => Raise e
    end.
Proof.
  intros Hw Hs. apply has_status_inv in Hs as [j [st [Hj [Hst Hf]]]].
  unfold poll_once.
  eapply returns_bindR_ok; [apply returns_get; exact Hw|].
  eapply returns_pureR_ok; [exact Hj|].
  eapply returns_pureR_ok; [exact Hst|].
  rewrite Hf.
  eapply returns_bindR_ok; [apply returns_get; reflexivity|].
  unfold transcript_of, and_then.
  destruct (response_json tr) as [tj|e].
  - eapply returns_pureR_ok; [reflexivity|].
    destruct (extract_text tj) as [t|e].
    + eapply returns_pureR_ok; [reflexivity|].
      apply returns_ret_eq; [|reflexivity]. unfold revai_poll, revai_fetch. same_world.
    + eapply returns_conv; [eapply returns_pureR_raise; reflexivity|].
      unfold revai_poll, revai_fetch. same_world.
  - eapply returns_conv; [eapply returns_pureR_raise; reflexivity|].
    unfold revai_poll, revai_fetch. same_world.
Qed.
End RevAIPolling.

(** Once the submission is accepted with a job id, the Kokoro provider
    is its polling loop. *)
Lemma kokoro_enters_loop {rt : PyRuntime} (s : TTS.ReplicateKokoroProvider.self)
    text voice speed w created id rest w' out :
  replies w = Ok created :: rest ->
  status_code created = 201%Z ->
  job_of created = Ok id ->
  returns (while_true (TTS.ReplicateKokoroProvider.poll_once s id) 0)
    (advance w rest [kokoro_submit s text voice speed]) w' out ->
  returns (TTS.ReplicateKokoroProvider.synthesize s text voice speed) w w' out.
Proof.
  intros Hw H201 Hid Hloop. apply job_of_inv in Hid as [j [Hj Hid]].
  unfold TTS.ReplicateKokoroProvider.synthesize,
    TTS.ReplicateKokoroProvider.create_prediction.
  eapply returns_bindR_ok; [apply returns_post; exact Hw|].
  rewrite H201. simpl.
  eapply returns_pureR_ok; [exact Hj|].
  eapply returns_pureR_ok; [exact Hid|].
  exact Hloop.
Qed.

(** The same for the Rev.ai provider. *)
Lemma revai_enters_loop {rt : PyRuntime} (s : STT.RevAIProvider.self)
    audio filename content_type w created id rest w' out :
  replies w = Ok created :: rest ->
  status_code created = 200%Z ->
  job_of created = Ok id ->
  returns (while_true (STT.RevAIProvider.poll_once s id) 0)
    (advance w rest [revai_submit s audio filename content_type]) w' out ->
  returns (STT.RevAIProvider.transcribe s audio filename content_type) w w' out.
Proof.
  intros Hw H200 Hid Hloop. apply job_of_inv in Hid as [j [Hj Hid]].
  unfold STT.RevAIProvider.transcribe.
  eapply returns_bindR_ok; [apply returns_post; exact Hw|].
  rewrite H200. simpl.
  eapply returns_pureR_ok; [exact Hj|].
  eapply returns_pureR_ok; [exact Hid|].
  exact Hloop.
Qed.

(** What one round of a loop body hands to the loop. *)
Lemma returns_while_last {S A} (body : S -> itree ioE (result (S + A)))
    s w w1 (r : result A) :
  returns (body s) w w1
    match r with Ok a => Ok (inr a) | Raise e => Raise e end ->
  returns (while_true body s) w w1 r.
Proof.
  destruct r; [apply returns_while_done | apply returns_while_raise].
Qed.

(** The Kokoro provider up to its last poll: the submission is accepted
    with a job id, the replies [pend] leave the job unfinished, and the
    round that reads the next reply ends the loop. *)
Lemma kokoro_last_round {rt : PyRuntime} (s : TTS.ReplicateKokoroProvider.self)
    text voice speed w created id pend rest w' out :
  replies w = Ok created :: List.map Ok pend ++ rest ->
  status_code created = 201%Z ->
  job_of created = Ok id ->
  forallb (pending kokoro_terminal) pend = true ->
  returns (TTS.ReplicateKokoroProvider.poll_once s id (length pend))
    (advance w rest
       (kokoro_submit s text voice speed
          :: rounds (kokoro_poll s id) 500 (length pend))) w'
    match out with Ok a => Ok (inr a) | Raise e => Raise e end ->
  returns (TTS.ReplicateKokoroProvider.synthesize s text voice speed) w w' out.
Proof.
  intros Hw H201 Hid Hpend Hfin.
  eapply kokoro_enters_loop; [exact Hw | exact H201 | exact Hid |].
  eapply returns_while_pending;
    [apply (kokoro_round s id) | exact Hpend | reflexivity |].
  rewrite advance_advance. apply returns_while_last. exact Hfin.
Qed.

(** The same for the Rev.ai provider. *)
Lemma revai_last_round {rt : PyRuntime} (s : STT.RevAIProvider.self)
    audio filename content_type w created id pend rest w' out :
  replies w = Ok created :: List.map Ok pend ++ rest ->
  status_code created = 200%Z ->
  job_of created = Ok id ->
  forallb (pending revai_terminal) pend = true ->
  returns (STT.RevAIProvider.poll_once s id (length pend))
    (advance w rest
       (revai_submit s audio filename content_type
          :: rounds (revai_poll s id) 1000 (length pend))) w'
    match out with Ok a => Ok (inr a) | Raise e => Raise e end ->
  returns (STT.RevAIProvider.transcribe s audio filename content_type) w w' out.
Proof.
  intros Hw H200 Hid Hpend Hfin.
  eapply revai_enters_loop; [exact Hw | exact H200 | exact Hid |].
  eapply returns_while_pending;
    [apply (revai_round s id) | exact Hpend | reflexivity |].
  rewrite advance_advance. apply returns_while_last. exact Hfin.
Qed.

(* ===================================================================== *)
(** ** Asynchronous jobs: the polling protocol *)
(* ===================================================================== *)

(** C1.  Both asynchronous providers: when the submission is accepted
    with a job id and the backend then answers the status polls with [N]
    unfinished statuses followed by a terminal one, the provider issues
    the submission and then exactly [N+1] status polls, one fixed interval
    apart (0.5 s for Kokoro, 1 s for Rev.ai), and nothing in between.  On
    the success status it goes on to one fetch of the result and returns
    it (the audio of a fetch that answers 200; the text of the
    transcript); on a failure status it raises, and the call log ends with
    the last poll. *)
Theorem C1_polling_protocol :
  (forall (rt : PyRuntime) (s : TTS.ReplicateKokoroProvider.self)
      text voice speed w created id pend final rest,
    replies w = Ok created :: List.map Ok pend ++ Ok final :: rest ->
    status_code created = 201%Z ->
    job_of created = Ok id ->
    forallb (pending kokoro_terminal) pend = true ->
    let synth := TTS.ReplicateKokoroProvider.synthesize s text voice speed in
    let polls := poll_trace (kokoro_poll s id) 500 (length pend) in
    let issued := kokoro_submit s text voice speed :: polls in
    count_got polls = S (length pend)
    /\ (forall u audio rest',
          has_status (lit "succeeded") final = true ->
          output_of final = Ok (JStr u) ->
          rest = Ok audio :: rest' ->
          returns synth w (advance w rest' (issued ++ [Got u []]))
            (if (status_code audio =? 200)%Z then Ok (content audio)
             else Raise (HTTPException 500 (lit "Failed to download audio"))))
    /\ (has_status (lit "failed") final = true ->
        exists err, error_of final = Ok err /\
          returns synth w (advance w rest issued)
            (Raise (HTTPException 500 (lit "TTS failed: " ++ format_value err))))
    /\ (has_status (lit "canceled") final = true ->
        returns synth w (advance w rest issued)
          (Raise (HTTPException 500 (lit "TTS prediction was canceled")))))
  /\
  (forall (rt : PyRuntime) (s : STT.RevAIProvider.self)
      audio filename content_type w created id pend final rest,
    replies w = Ok created :: List.map Ok pend ++ Ok final :: rest ->
    status_code created = 200%Z ->
    job_of created = Ok id ->
    forallb (pending revai_terminal) pend = true ->
    let transcr := STT.RevAIProvider.transcribe s audio filename content_type in
    let polls := poll_trace (revai_poll s id) 1000 (length pend) in
    let issued := revai_submit s audio filename content_type :: polls in
    count_got polls = S (length pend)
    /\ (forall tr rest',
          has_status (lit "transcribed") final = true ->
          rest = Ok tr :: rest' ->
          returns transcr w (advance w rest' (issued ++ [revai_fetch s id]))
            match transcript_of tr with
            | Ok t => Ok (JStr t)
            | Raise e => Raise e
            end)
    /\ (has_status (lit "failed") final = true ->
        returns transcr w (advance w rest issued)
          (Raise (HTTPException 500 (lit "Rev.ai transcription failed"))))).
Proof.
  split.
  - intros rt s text voice speed w created id pend final rest
      Hw H201 Hid Hpend synth polls issued.
    split; [apply poll_trace_count|]. split; [|split].
    + intros u audio rest' Hs Hout ->.
      eapply kokoro_last_round; [exact Hw | exact H201 | exact Hid | exact Hpend |].
      eapply returns_conv.
      * pose proof (kokoro_succeeded s id (length pend)
          (advance w (Ok final :: Ok audio :: rest')
             (kokoro_submit s text voice speed
                :: rounds (kokoro_poll s id) 500 (length pend)))
          (u := u) eq_refl Hs Hout) as H.
        destruct (status_code audio =? 200)%Z; exact H.
      * subst issued polls. same_world.
    + intros Hs.
      destruct (kokoro_failed s id (length pend)
                  (advance w (Ok final :: rest)
                     (kokoro_submit s text voice speed
                        :: rounds (kokoro_poll s id) 500 (length pend)))
                  (rest := rest) eq_refl Hs) as [err [Herr Hret]].
      exists err. split; [exact Herr|].
      eapply kokoro_last_round; [exact Hw | exact H201 | exact Hid | exact Hpend |].
      eapply returns_conv; [exact Hret|]. subst issued polls. same_world.
    + intros Hs.
      eapply kokoro_last_round; [exact Hw | exact H201 | exact Hid | exact Hpend |].
      eapply returns_conv; [eapply kokoro_canceled; [reflexivity | exact Hs]|].
      subst issued polls. same_world.
  - intros rt s audio filename content_type w created id pend final rest
      Hw H200 Hid Hpend transcr polls issued.
    split; [apply poll_trace_count|]. split.
    + intros tr rest' Hs ->.
      eapply revai_last_round; [exact Hw | exact H200 | exact Hid | exact Hpend |].
      eapply returns_conv.
      * pose proof (revai_transcribed s id (length pend)
          (advance w (Ok final :: Ok tr :: rest')
             (revai_submit s audio filename content_type
                :: rounds (revai_poll s id) 1000 (length pend)))
          eq_refl Hs) as H.
        destruct (transcript_of tr); exact H.
      * subst issued polls. same_world.
    + intros Hs.
      eapply revai_last_round; [exact Hw | exact H200 | exact Hid | exact Hpend |].
      eapply returns_conv; [eapply revai_failed; [reflexivity | exact Hs]|].
      subst issued polls. same_world.
Qed.

(* ===================================================================== *)
(** ** The HTTP front *)
(* ===================================================================== *)

Lemma Ret_inj {E R} (a b : R) : (Ret a : itree E R) = Ret b -> a = b.
Proof.
  intros H. apply (f_equal observe) in H. simpl in H. now inversion H.
Qed.

(** C2, as the code has it.  With no active provider both endpoints
    answer with an [HTTPException] of status 500 whose detail says that no
    provider is configured.  The endpoint is then a leaf of the
    interaction tree: it issues no call at all, so nothing is delegated. *)
Theorem C2_no_provider_answers_500 :
  (forall request,
     TTS.create_speech None request
     = Ret (Raise (HTTPException 500
         (lit "No TTS provider configured. Set TTS_PROVIDER and required configuration."))))
  /\ (forall file,
     STT.create_transcription None file
     = Ret (Raise (HTTPException 500
         (lit "No STT provider configured. Set STT_PROVIDER and required API key.")))).
Proof. split; reflexivity. Qed.

(** C2, the status: without a provider the speech endpoint does not
    answer 503, whatever the detail, and neither does the transcription
    endpoint. *)
Lemma C2_status_is_not_503 :
  ~ (exists detail,
       TTS.create_speech None sample_request
       = Ret (Raise (HTTPException 503 detail)))
  /\ ~ (exists detail,
       STT.create_transcription None sample_upload
       = Ret (Raise (HTTPException 503 detail))).
Proof.
  split; intros [detail H]; apply Ret_inj in H; discriminate H.
Qed.

(** C3.  [GET /health] of the TTS service reports "healthy" with the
    provider's name and configured flag when a provider is active and
    "degraded" with no name and [False] when none is.  The STT service
    reports the same name and flag, but its status is "healthy" in every
    state, also when no provider is active. *)
Theorem C3_health_status :
  (forall env p,
     TTS.health_check env (Some p)
     = mkHealth (lit "healthy") (Some (TTS.name p)) (TTS.is_configured p env))
  /\ (forall env,
     TTS.health_check env None = mkHealth (lit "degraded") None false)
  /\ (forall env p,
     STT.health_check env (Some p)
     = mkHealth (lit "healthy") (Some (STT.name p)) (STT.is_configured p env))
  /\ (forall env,
     STT.health_check env None = mkHealth (lit "healthy") None false).
Proof. repeat split. Qed.

Lemma lstrip_blank s : forallb is_space s = true -> lstrip s = [].
Proof.
  induction s as [|c s IH]; simpl; [reflexivity|].
  intros H. apply andb_true_iff in H as [Hc Hs]. rewrite Hc. auto.
Qed.

Lemma strip_blank s : forallb is_space s = true -> strip s = [].
Proof. intros H. unfold strip, rstrip. now rewrite (lstrip_blank s H). Qed.

(** C4.  With any active provider, a speech request whose input is empty
    or made of whitespace only is answered with an [HTTPException] of
    status 400.  The endpoint is then a leaf of the interaction tree,
    whatever the provider's [synthesize] is: it is not run. *)
Theorem C4_blank_input_is_rejected :
  forall (p : TTS.TTSProvider) (request : TTS.SpeechRequest),
    forallb is_space (TTS.input request) = true ->
    TTS.create_speech (Some p) request
    = Ret (Raise (HTTPException 400 (lit "Input text is required"))).
Proof.
  intros p request H. unfold TTS.create_speech.
  rewrite (strip_blank _ H). simpl. now rewrite orb_true_r.
Qed.

(* ===================================================================== *)
(** ** Provider selection *)
(* ===================================================================== *)

(** C5.  [get_provider] of both services, with [n] the lowercased
    identifier read from the environment.  When [n] is no key of the
    registry it raises a [ValueError] whose message names [n] and lists
    the registered identifiers; when the provider constructed for [n] is
    not configured it raises a [ValueError] saying so; otherwise it
    returns the constructed provider.  It raises in these two cases
    only. *)
Theorem C5_provider_selection :
  (forall (rt : PyRuntime) env,
    let n := str_lower (getenv_or env (lit "TTS_PROVIDER") (lit "piper")) in
    (~ In n [lit "piper"; lit "kokoro"] ->
       TTS.get_provider env
       = Raise (ValueError (lit "Unknown TTS provider: " ++ n
                              ++ lit ". Available: piper, kokoro")))
    /\ (forall cls, dict_get TTS.PROVIDERS n = Some cls ->
          TTS.is_configured (cls env) env = false ->
          TTS.get_provider env
          = Raise (ValueError (lit "TTS provider '" ++ n
                                 ++ lit "' is not configured. Check requirements.")))
    /\ (forall cls, dict_get TTS.PROVIDERS n = Some cls ->
          TTS.is_configured (cls env) env = true ->
          TTS.get_provider env = Ok (cls env))
    /\ ((exists e, TTS.get_provider env = Raise e) <->
        (~ In n [lit "piper"; lit "kokoro"]
         \/ exists cls, dict_get TTS.PROVIDERS n = Some cls
                        /\ TTS.is_configured (cls env) env = false)))
  /\
  (forall (rt : PyRuntime) env,
    let n := str_lower (getenv_or env (lit "STT_PROVIDER") (lit "groq")) in
    (~ In n [lit "groq"; lit "revai"; lit "deepgram"] ->
       STT.get_provider env
       = Raise (ValueError (lit "Unknown STT provider: " ++ n
                              ++ lit ". Available: groq, revai, deepgram")))
    /\ (forall cls, dict_get STT.PROVIDERS n = Some cls ->
          STT.is_configured (cls env) env = false ->
          STT.get_provider env
          = Raise (ValueError (lit "STT provider '" ++ n
                                 ++ lit "' is not configured. Check API key.")))
    /\ (forall cls, dict_get STT.PROVIDERS n = Some cls ->
          STT.is_configured (cls env) env = true ->
          STT.get_provider env = Ok (cls env))
    /\ ((exists e, STT.get_provider env = Raise e) <->
        (~ In n [lit "groq"; lit "revai"; lit "deepgram"]
         \/ exists cls, dict_get STT.PROVIDERS n = Some cls
                        /\ STT.is_configured (cls env) env = false))).
Proof.
  split; intros rt env n.
  - assert (Hkeys : dict_get TTS.PROVIDERS n = None
                    <-> ~ In n [lit "piper"; lit "kokoro"])
      by apply dict_get_None.
    unfold TTS.get_provider. fold n.
    repeat split.
    + intros Hn. apply Hkeys in Hn. now rewrite Hn.
    + intros cls Hc Hf. now rewrite Hc, Hf.
    + intros cls Hc Ht. now rewrite Hc, Ht.
    + intros [e He]. destruct (dict_get TTS.PROVIDERS n) as [cls|] eqn:Hc.
      * right. exists cls. split; [reflexivity|].
        destruct (TTS.is_configured (cls env) env); [discriminate | reflexivity].
      * left. now apply Hkeys.
    + intros [Hn | [cls [Hc Hf]]].
      * apply Hkeys in Hn. rewrite Hn. eauto.
      * rewrite Hc, Hf. simpl. eauto.
  - assert (Hkeys : dict_get STT.PROVIDERS n = None
                    <-> ~ In n [lit "groq"; lit "revai"; lit "deepgram"])
      by apply dict_get_None.
    unfold STT.get_provider. fold n.
    repeat split.
    + intros Hn. apply Hkeys in Hn. now rewrite Hn.
    + intros cls Hc Hf. now rewrite Hc, Hf.
    + intros cls Hc Ht. now rewrite Hc, Ht.
    + intros [e He]. destruct (dict_get STT.PROVIDERS n) as [cls|] eqn:Hc.
      * right. exists cls. split; [reflexivity|].
        destruct (STT.is_configured (cls env) env); [discriminate | reflexivity].
      * left. now apply Hkeys.
    + intros [Hn | [cls [Hc Hf]]].
      * apply Hkeys in Hn. rewrite Hn. eauto.
      * rewrite Hc, Hf. simpl. eauto.
Qed.

(* ===================================================================== *)
(** ** Voice mapping *)
(* ===================================================================== *)

(** Every backend voice of Kokoro's mapping table is a known voice. *)
Lemma kokoro_map_known env k v :
  dict_get (TTS.ReplicateKokoroProvider.voice_map
              (TTS.ReplicateKokoroProvider.init env)) k = Some v ->
  str_in v (TTS.ReplicateKokoroProvider.available_voices
              (TTS.ReplicateKokoroProvider.init env)) = true.
Proof.
  cbn [TTS.ReplicateKokoroProvider.voice_map TTS.ReplicateKokoroProvider.init
       TTS.ReplicateKokoroProvider.available_voices dict_get].
  repeat match goal with
         | |- (if ?c then _ else _) = Some _ -> _ => destruct c
         end;
    intros H; try discriminate H; injection H as <-; vm_compute; reflexivity.
Qed.

(** C6.  For a requested voice whose lowercase form is a key of the
    mapping table, both providers use the mapped backend voice.  For any
    other name, Piper uses the name as given (in the model path and as
    the fallback model name), and Kokoro uses the name as given when it
    is a known voice and the configured default voice when it is not.
    Choosing the voice is a total function: no name makes it raise. *)
Theorem C6_voice_mapping :
  forall (rt : PyRuntime) env voice,
    let ps := TTS.PiperProvider.init env in
    let ks := TTS.ReplicateKokoroProvider.init env in
    (forall v,
       dict_get (TTS.PiperProvider.voice_map ps) (str_lower voice) = Some v ->
       TTS.PiperProvider._get_voice_path ps voice
       = (path_join (TTS.PiperProvider.voices_dir ps) (v ++ lit ".onnx"), v))
    /\ (dict_get (TTS.PiperProvider.voice_map ps) (str_lower voice) = None ->
        TTS.PiperProvider._get_voice_path ps voice
        = (path_join (TTS.PiperProvider.voices_dir ps) (voice ++ lit ".onnx"),
           voice))
    /\ (forall v,
       dict_get (TTS.ReplicateKokoroProvider.voice_map ks) (str_lower voice)
         = Some v ->
       TTS.ReplicateKokoroProvider.kokoro_voice ks voice = v)
    /\ (dict_get (TTS.ReplicateKokoroProvider.voice_map ks) (str_lower voice)
          = None ->
        TTS.ReplicateKokoroProvider.kokoro_voice ks voice
        = if str_in voice (TTS.ReplicateKokoroProvider.available_voices ks)
          then voice
          else TTS.ReplicateKokoroProvider.default_voice ks).
Proof.
  intros rt env voice ps ks. repeat split.
  - intros v Hv. unfold TTS.PiperProvider._get_voice_path, dict_get_or.
    now rewrite Hv.
  - intros Hv. unfold TTS.PiperProvider._get_voice_path, dict_get_or.
    now rewrite Hv.
  - intros v Hv. unfold TTS.ReplicateKokoroProvider.kokoro_voice, dict_get_or.
    rewrite Hv. subst ks. now rewrite (kokoro_map_known env _ Hv).
  - intros Hv. unfold TTS.ReplicateKokoroProvider.kokoro_voice, dict_get_or.
    rewrite Hv. now destruct (str_in voice _).
Qed.

(* ===================================================================== *)
(** ** Refused submissions *)
(* ===================================================================== *)

(** C7.  A submission that the backend answers with a status other than
    201 (Kokoro) or 200 (Groq, Deepgram) makes the provider raise an
    [HTTPException] that carries that status and the body text
    unchanged; the submission is the only call issued, and the outcome is
    the exception, not a value. *)
Theorem C7_refused_submission_is_raised :
  (forall (rt : PyRuntime) (s : TTS.ReplicateKokoroProvider.self)
      input voice speed w resp rest,
     replies w = Ok resp :: rest ->
     status_code resp <> 201%Z ->
     returns (TTS.ReplicateKokoroProvider.synthesize s input voice speed) w
       (advance w rest [kokoro_submit s input voice speed])
       (Raise (HTTPException (status_code resp) (text resp))))
  /\ (forall (s : STT.GroqProvider.self) audio filename content_type w resp rest,
     replies w = Ok resp :: rest ->
     status_code resp <> 200%Z ->
     returns (STT.GroqProvider.transcribe s audio filename content_type) w
       (advance w rest [groq_submit s audio filename content_type])
       (Raise (HTTPException (status_code resp) (text resp))))
  /\ (forall (s : STT.DeepgramProvider.self) audio filename content_type w resp rest,
     replies w = Ok resp :: rest ->
     status_code resp <> 200%Z ->
     returns (STT.DeepgramProvider.transcribe s audio filename content_type) w
       (advance w rest [deepgram_submit s audio content_type])
       (Raise (HTTPException (status_code resp) (text resp)))).
Proof.
  split; [|split].
  - intros rt s input voice speed w resp rest Hw Hne.
    unfold TTS.ReplicateKokoroProvider.synthesize,
      TTS.ReplicateKokoroProvider.create_prediction.
    eapply returns_bindR_ok; [apply returns_post; exact Hw|].
    apply Z.eqb_neq in Hne. rewrite Hne. simpl. apply returns_ret.
  - intros s audio filename content_type w resp rest Hw Hne.
    unfold STT.GroqProvider.transcribe.
    eapply returns_bindR_ok; [apply returns_post; exact Hw|].
    apply Z.eqb_neq in Hne. rewrite Hne. simpl. apply returns_ret.
  - intros s audio filename content_type w resp rest Hw Hne.
    unfold STT.DeepgramProvider.transcribe.
    eapply returns_bindR_ok; [apply returns_post; exact Hw|].
    apply Z.eqb_neq in Hne. rewrite Hne. simpl. apply returns_ret.
Qed.

(* ===================================================================== *)
(** ** The temporary file of the Piper provider *)
(* ===================================================================== *)

Lemma returns_path_exists w p :
  returns (ITree.trigger (PathExists p)) w w
    match disk w p with Some _ => true | None => false end.
Proof. exact (returns_trigger (PathExists p) w). Qed.

Lemma returns_try_finally {A} (body : itree ioE (result A)) fin w w1 w2 r :
  returns body w w1 r -> returns fin w1 w2 (Ok tt) ->
  returns (try_finally body fin) w w2 r.
Proof.
  intros Hb Hf. unfold try_finally.
  eapply returns_bind; [exact Hb|].
  eapply returns_bind; [exact Hf|]. apply returns_ret.
Qed.

Lemma write_file_same p b d : write_file p b d p = b.
Proof. unfold write_file. now rewrite str_eqb_refl. Qed.

Section PiperCleanup.
Context {rt : PyRuntime}.
Import TTS.PiperProvider.

(** The [finally] block never raises and leaves no file at the path. *)
Lemma remove_tmp_removes tmp w :
  exists w', returns (remove_tmp tmp) w w' (Ok tt) /\ disk w' tmp = None.
Proof.
  unfold remove_tmp. destruct (disk w tmp) as [b|] eqn:Hd.
  - exists (with_disk (write_file tmp None (disk w)) w). split.
    + eapply returns_bind; [apply returns_path_exists|]. rewrite Hd.
      pose proof (returns_trigger (Unlink tmp) w) as H.
      simpl in H. rewrite Hd in H. exact H.
    + simpl. apply write_file_same.
  - exists w. split; [|exact Hd].
    eapply returns_bind; [apply returns_path_exists|]. rewrite Hd.
    apply returns_ret.
Qed.

(** The [try] block always comes to an end, with a value or an
    exception. *)
Lemma run_piper_ends m tmp text w :
  exists w1 r, returns (run_piper m tmp text) w w1 r.
Proof.
  unfold run_piper.
  set (cmd := [lit "piper"; lit "--model"; m; lit "--output_file"; tmp]).
  pose proof (returns_trigger (Popen cmd) w) as Hp. simpl in Hp.
  destruct (spawn w cmd) as [[]|e] eqn:Hs.
  2:{ exists w, (Raise e). eapply returns_bindR_raise. exact Hp. }
  destruct (utf8_encode text) as [input|e] eqn:He.
  2:{ exists w, (Raise e). eapply returns_bindR_ok; [exact Hp|].
      eapply returns_pureR_raise. reflexivity. }
  pose proof (returns_trigger (Communicate cmd input 120) w) as Hc.
  simpl in Hc. destruct (run w cmd input (disk w)) as [d [done|e]] eqn:Hr;
    simpl in Hc.
  2:{ exists (with_disk d w), (Raise e).
      eapply returns_bindR_ok; [exact Hp|].
      eapply returns_pureR_ok; [reflexivity|].
      eapply returns_bindR_raise. exact Hc. }
  destruct (returncode done =? 0)%Z eqn:Hrc.
  - pose proof (returns_trigger (ReadFile tmp) (with_disk d w)) as Hread.
    simpl in Hread.
    destruct (d tmp) as [audio|]; eexists _, _;
      (eapply returns_bindR_ok; [exact Hp|]);
      (eapply returns_pureR_ok; [reflexivity|]);
      (eapply returns_bindR_ok; [exact Hc|]);
      rewrite Hrc; simpl.
    + eapply returns_bindR_ok; [exact Hread|]. apply returns_ret.
    + eapply returns_bindR_raise. exact Hread.
  - destruct (utf8_decode (stderr done)) as [err|e] eqn:Hd; eexists _, _;
      (eapply returns_bindR_ok; [exact Hp|]);
      (eapply returns_pureR_ok; [reflexivity|]);
      (eapply returns_bindR_ok; [exact Hc|]);
      rewrite Hrc; cbn [negb].
    + eapply returns_pureR_ok; [exact Hd|].
      eapply returns_pureR_ok; [exact Hd|]. apply returns_ret.
    + eapply returns_pureR_raise. exact Hd.
Qed.

(** [synthesize] around its [try] block: whatever the block comes to,
    [synthesize] comes to the same, in a world without the temporary
    file. *)
Lemma piper_wraps_try s text voice speed w tmp w1 r :
  next_tmp w = Ok tmp ->
  returns (run_piper (piper_model s voice w) tmp text)
    (with_disk (disk_with_tmp w tmp) w) w1 r ->
  exists w', returns (synthesize s text voice speed) w w' r
             /\ disk w' tmp = None.
Proof.
  intros Htmp Hrun.
  destruct (remove_tmp_removes tmp w1) as [w' [Hfin Hgone]].
  exists w'. split; [|exact Hgone].
  unfold synthesize. unfold piper_model in Hrun.
  destruct (_get_voice_path s voice) as [model_path piper_voice].
  eapply returns_bind; [apply returns_path_exists|].
  pose proof (returns_trigger (NamedTemporaryFile (lit ".wav")) w) as Hmk.
  simpl in Hmk. rewrite Htmp in Hmk. simpl in Hmk.
  eapply returns_bindR_ok; [exact Hmk|].
  eapply returns_try_finally; [|exact Hfin].
  destruct (disk w model_path); exact Hrun.
Qed.

(** When no temporary file can be created, [synthesize] raises at
    once. *)
Lemma piper_without_tmp s text voice speed w e :
  next_tmp w = Raise e ->
  returns (synthesize s text voice speed) w w (Raise e).
Proof.
  intros Htmp. unfold synthesize.
  destruct (_get_voice_path s voice) as [model_path piper_voice].
  eapply returns_bind; [apply returns_path_exists|].
  pose proof (returns_trigger (NamedTemporaryFile (lit ".wav")) w) as Hmk.
  simpl in Hmk. rewrite Htmp in Hmk. simpl in Hmk.
  eapply returns_bindR_raise. exact Hmk.
Qed.

(** The three ways out of the [try] block that the claim names. *)
Lemma run_piper_audio m tmp text w input d done audio :
  spawn w [lit "piper"; lit "--model"; m; lit "--output_file"; tmp] = Ok tt ->
  utf8_encode text = Ok input ->
  run w [lit "piper"; lit "--model"; m; lit "--output_file"; tmp] input (disk w)
    = (d, Ok done) ->
  returncode done = 0%Z ->
  d tmp = Some audio ->
  returns (run_piper m tmp text) w (with_disk d w) (Ok audio).
Proof.
  intros Hs He Hr Hrc Hd. unfold run_piper.
  set (cmd := [lit "piper"; lit "--model"; m; lit "--output_file"; tmp]) in *.
  pose proof (returns_trigger (Popen cmd) w) as Hp. simpl in Hp. rewrite Hs in Hp.
  pose proof (returns_trigger (Communicate cmd input 120) w) as Hc.
  simpl in Hc. rewrite Hr in Hc. simpl in Hc.
  pose proof (returns_trigger (ReadFile tmp) (with_disk d w)) as Hread.
  simpl in Hread. rewrite Hd in Hread.
  eapply returns_bindR_ok; [exact Hp|].
  eapply returns_pureR_ok; [exact He|].
  eapply returns_bindR_ok; [exact Hc|].
  rewrite Hrc. cbn [Z.eqb negb].
  eapply returns_bindR_ok; [exact Hread|]. apply returns_ret.
Qed.

Lemma run_piper_exit_status m tmp text w input d done err :
  spawn w [lit "piper"; lit "--model"; m; lit "--output_file"; tmp] = Ok tt ->
  utf8_encode text = Ok input ->
  run w [lit "piper"; lit "--model"; m; lit "--output_file"; tmp] input (disk w)
    = (d, Ok done) ->
  returncode done <> 0%Z ->
  utf8_decode (stderr done) = Ok err ->
  returns (run_piper m tmp text) w (with_disk d w)
    (Raise (HTTPException 500 (lit "TTS failed: " ++ err))).
Proof.
  intros Hs He Hr Hrc Hd. unfold run_piper.
  set (cmd := [lit "piper"; lit "--model"; m; lit "--output_file"; tmp]) in *.
  pose proof (returns_trigger (Popen cmd) w) as Hp. simpl in Hp. rewrite Hs in Hp.
  pose proof (returns_trigger (Communicate cmd input 120) w) as Hc.
  simpl in Hc. rewrite Hr in Hc. simpl in Hc.
  eapply returns_bindR_ok; [exact Hp|].
  eapply returns_pureR_ok; [exact He|].
  eapply returns_bindR_ok; [exact Hc|].
  apply Z.eqb_neq in Hrc. rewrite Hrc. cbn [negb].
  eapply returns_pureR_ok; [exact Hd|].
  eapply returns_pureR_ok; [exact Hd|]. apply returns_ret.
Qed.

Lemma run_piper_timeout m tmp text w input d e :
  spawn w [lit "piper"; lit "--model"; m; lit "--output_file"; tmp] = Ok tt ->
  utf8_encode text = Ok input ->
  run w [lit "piper"; lit "--model"; m; lit "--output_file"; tmp] input (disk w)
    = (d, Raise e) ->
  returns (run_piper m tmp text) w (with_disk d w) (Raise e).
Proof.
  intros Hs He Hr. unfold run_piper.
  set (cmd := [lit "piper"; lit "--model"; m; lit "--output_file"; tmp]) in *.
  pose proof (returns_trigger (Popen cmd) w) as Hp. simpl in Hp. rewrite Hs in Hp.
  pose proof (returns_trigger (Communicate cmd input 120) w) as Hc.
  simpl in Hc. rewrite Hr in Hc. simpl in Hc.
  eapply returns_bindR_ok; [exact Hp|].
  eapply returns_pureR_ok; [exact He|].
  eapply returns_bindR_raise. exact Hc.
Qed.
End PiperCleanup.

(** C8.  Every call of the Piper provider's [synthesize] comes to an
    end, and in the world it leaves, the temporary file created for the
    call does not exist.  The three ways out named by the claim: when the
    subprocess exits with status 0 the bytes it wrote to the file are
    returned; when it exits with another status an [HTTPException] 500
    with its error output is raised; when waiting for it raises (a
    timeout, for one) that exception goes up.  The file is gone in each
    case. *)
Theorem C8_piper_tmp_file_removed :
  forall (rt : PyRuntime) (s : TTS.PiperProvider.self) text voice speed w,
    let synth := TTS.PiperProvider.synthesize s text voice speed in
    (exists w' out,
       returns synth w w' out
       /\ forall tmp, next_tmp w = Ok tmp -> disk w' tmp = None)
    /\ (forall tmp input d done,
         next_tmp w = Ok tmp ->
         spawn w (piper_cmd s voice w tmp) = Ok tt ->
         utf8_encode text = Ok input ->
         run w (piper_cmd s voice w tmp) input (disk_with_tmp w tmp)
           = (d, Ok done) ->
         (forall audio, returncode done = 0%Z -> d tmp = Some audio ->
            exists w', returns synth w w' (Ok audio) /\ disk w' tmp = None)
         /\ (forall err, returncode done <> 0%Z ->
              utf8_decode (stderr done) = Ok err ->
              exists w',
                returns synth w w'
                  (Raise (HTTPException 500 (lit "TTS failed: " ++ err)))
                /\ disk w' tmp = None))
    /\ (forall tmp input d e,
         next_tmp w = Ok tmp ->
         spawn w (piper_cmd s voice w tmp) = Ok tt ->
         utf8_encode text = Ok input ->
         run w (piper_cmd s voice w tmp) input (disk_with_tmp w tmp)
           = (d, Raise e) ->
         exists w', returns synth w w' (Raise e) /\ disk w' tmp = None).
Proof.
  intros rt s text voice speed w synth. split; [|split].
  - destruct (next_tmp w) as [tmp|e] eqn:Htmp.
    + destruct (run_piper_ends (piper_model s voice w) tmp text
                  (with_disk (disk_with_tmp w tmp) w)) as [w1 [r Hrun]].
      destruct (@piper_wraps_try _ s text voice speed w tmp w1 r Htmp Hrun)
        as [w' [H Hgone]].
      exists w', r. split; [exact H|]. intros tmp' Heq.
      injection Heq as <-. exact Hgone.
    + exists w, (Raise e). split.
      * now apply piper_without_tmp.
      * discriminate.
  - intros tmp input d done Htmp Hs He Hr. split.
    + intros audio Hrc Hd.
      eapply piper_wraps_try; [exact Htmp|].
      eapply run_piper_audio; eassumption.
    + intros err Hrc Hd.
      eapply piper_wraps_try; [exact Htmp|].
      eapply run_piper_exit_status; eassumption.
  - intros tmp input d e Htmp Hs He Hr.
    eapply piper_wraps_try; [exact Htmp|].
    eapply run_piper_timeout; eassumption.
Qed.

(* ===================================================================== *)
(** ** Transcripts *)
(* ===================================================================== *)

Lemma element_type e :
  json_get (element_json e) (lit "type") JNull = Ok (JStr (el_type e)).
Proof. reflexivity. Qed.

Lemma element_value e :
  json_item (element_json e) (lit "value") = Ok (JStr (el_value e)).
Proof. reflexivity. Qed.

Lemma monologue_elements m :
  json_get (monologue_json m) (lit "elements") (JArr [])
  = Ok (JArr (List.map element_json (elements m))).
Proof. reflexivity. Qed.

Lemma text_values_cons x rest :
  STT.RevAIProvider.text_values (x :: rest)
  = (let? ty := json_get x (lit "type") JNull in
     if json_is_str ty (lit "text") then
       let? v := json_item x (lit "value") in
       let? vs := STT.RevAIProvider.text_values rest in
       Ok (v :: vs)
     else STT.RevAIProvider.text_values rest).
Proof. reflexivity. Qed.

Lemma monologue_values_cons x rest :
  STT.RevAIProvider.monologue_values (x :: rest)
  = (let? els := json_get x (lit "elements") (JArr []) in
     let? elements := STT.RevAIProvider.json_iter els in
     let? vs := STT.RevAIProvider.text_values elements in
     let? ws := STT.RevAIProvider.monologue_values rest in
     Ok (vs ++ ws)).
Proof. reflexivity. Qed.

Lemma text_values_elements es :
  STT.RevAIProvider.text_values (List.map element_json es)
  = Ok (List.map (fun e => JStr (el_value e)) (filter is_text es)).
Proof.
  induction es as [|e es IH]; [reflexivity|].
  cbn [List.map filter].
  rewrite text_values_cons, element_type, element_value, IH.
  cbn [and_then json_is_str]. fold (is_text e).
  destruct (is_text e); reflexivity.
Qed.

Lemma monologue_values_transcript (t : transcript) :
  STT.RevAIProvider.monologue_values (List.map monologue_json t)
  = Ok (List.map JStr (text_elements t)).
Proof.
  unfold text_elements.
  induction t as [|m t IH]; [reflexivity|].
  cbn [List.map concat].
  rewrite monologue_values_cons, monologue_elements.
  cbn [and_then STT.RevAIProvider.json_iter].
  rewrite text_values_elements, IH. cbn [and_then].
  rewrite filter_app, !List.map_app, !List.map_map. reflexivity.
Qed.

Lemma str_items_strings l :
  STT.RevAIProvider.str_items (List.map JStr l) = Ok l.
Proof.
  induction l as [|x l IH]; [reflexivity|].
  cbn [List.map STT.RevAIProvider.str_items]. rewrite IH. reflexivity.
Qed.

(** C9.  The text the Rev.ai provider makes of a structured transcript
    is the values of all its elements of type "text", monologue after
    monologue and in order, joined by single spaces.  A transcript of two
    monologues with the text elements "Hello", "world" and "foo", "bar"
    gives "Hello world foo bar". *)
Theorem C9_transcript_text :
  (forall t : transcript,
     STT.RevAIProvider.extract_text (transcript_json t) = Ok (reconstructed t))
  /\ (forall sp1 sp2 x1 x2 x3 x4,
       STT.RevAIProvider.extract_text
         (transcript_json
            [ mkMonologue sp1 [ mkElement (lit "text") (lit "Hello") x1;
                                mkElement (lit "text") (lit "world") x2 ];
              mkMonologue sp2 [ mkElement (lit "text") (lit "foo") x3;
                                mkElement (lit "text") (lit "bar") x4 ] ])
       = Ok (lit "Hello world foo bar")).
Proof.
  assert (H : forall t : transcript,
    STT.RevAIProvider.extract_text (transcript_json t) = Ok (reconstructed t)).
  { intros t. unfold STT.RevAIProvider.extract_text, transcript_json.
    cbn [json_get dict_get].
    replace (str_eqb (lit "monologues") (lit "monologues")) with true by reflexivity.
    cbn [and_then STT.RevAIProvider.json_iter].
    rewrite monologue_values_transcript. cbn [and_then].
    rewrite str_items_strings. reflexivity. }
  split; [exact H|].
  intros sp1 sp2 x1 x2 x3 x4. rewrite H. reflexivity.
Qed.

(* ===================================================================== *)
(** ** Bodies without a transcript *)
(* ===================================================================== *)

Lemma lacks_transcript_extract body :
  lacks_transcript body ->
  STT.DeepgramProvider.extract_transcript body = Ok (JStr []).
Proof.
  intros H. unfold STT.DeepgramProvider.extract_transcript.
  destruct H as [body results Hr Hc
                | body results channel more Hr Hc Ha
                | body results channel more fields more' Hr Hc Ha Ht];
    rewrite Hr; cbn [and_then]; rewrite Hc; cbn [and_then truthy json_first];
    try reflexivity; rewrite Ha; cbn [and_then truthy json_first];
    try reflexivity.
  cbn [json_get]. now rewrite Ht.
Qed.

(** What the transcription endpoint makes of the provider's outcome. *)
Lemma create_transcription_text p file w w' t :
  returns (STT.transcribe p (STT.file_bytes file)
             (opt_or (STT.filename file) (lit "audio.wav"))
             (opt_or (STT.content_type file) (lit "audio/wav"))) w w' (Ok t) ->
  returns (STT.create_transcription (Some p) file) w w'
    (Ok (JObj [ (lit "text", t) ])).
Proof.
  intros H. unfold STT.create_transcription.
  eapply returns_bind; [exact H|]. apply returns_ret.
Qed.

(** C10.  A Groq reply of status 200 whose JSON object has no ["text"],
    and a Deepgram reply of status 200 whose JSON lacks the transcript
    (no channel, no alternative, or no ["transcript"] in the first
    alternative), make [transcribe] return the empty string, and the
    endpoint answer with the object [{"text": ""}]. *)
Theorem C10_missing_transcript_is_empty_text :
  (forall env file w resp fields rest,
     let s := STT.GroqProvider.init env in
     let filename := opt_or (STT.filename file) (lit "audio.wav") in
     let content_type := opt_or (STT.content_type file) (lit "audio/wav") in
     let w' := advance w rest
                 [groq_submit s (STT.file_bytes file) filename content_type] in
     replies w = Ok resp :: rest ->
     status_code resp = 200%Z ->
     json_body resp = Some (JObj fields) ->
     dict_get fields (lit "text") = None ->
     returns (STT.GroqProvider.transcribe s (STT.file_bytes file) filename
                content_type) w w' (Ok (JStr []))
     /\ returns (STT.create_transcription (Some (STT.GroqProvider.make env)) file)
          w w' (Ok (JObj [ (lit "text", JStr []) ])))
  /\
  (forall env file w resp body rest,
     let s := STT.DeepgramProvider.init env in
     let filename := opt_or (STT.filename file) (lit "audio.wav") in
     let content_type := opt_or (STT.content_type file) (lit "audio/wav") in
     let w' := advance w rest
                 [deepgram_submit s (STT.file_bytes file) content_type] in
     replies w = Ok resp :: rest ->
     status_code resp = 200%Z ->
     json_body resp = Some body ->
     lacks_transcript body ->
     returns (STT.DeepgramProvider.transcribe s (STT.file_bytes file) filename
                content_type) w w' (Ok (JStr []))
     /\ returns (STT.create_transcription (Some (STT.DeepgramProvider.make env))
                   file) w w' (Ok (JObj [ (lit "text", JStr []) ]))).
Proof.
  split.
  - intros env file w resp fields rest s filename content_type w' Hw H200 Hj Ht.
    assert (H : returns (STT.GroqProvider.transcribe s (STT.file_bytes file)
                           filename content_type) w w' (Ok (JStr []))).
    { unfold STT.GroqProvider.transcribe.
      eapply returns_bindR_ok; [apply returns_post; exact Hw|].
      rewrite H200. cbn [Z.eqb Pos.eqb negb].
      eapply returns_pureR_ok; [unfold response_json; rewrite Hj; reflexivity|].
      unfold pureR. cbn [json_get]. rewrite Ht. apply returns_ret. }
    split; [exact H|]. apply create_transcription_text. exact H.
  - intros env file w resp body rest s filename content_type w' Hw H200 Hj Hl.
    assert (H : returns (STT.DeepgramProvider.transcribe s (STT.file_bytes file)
                           filename content_type) w w' (Ok (JStr []))).
    { unfold STT.DeepgramProvider.transcribe.
      eapply returns_bindR_ok; [apply returns_post; exact Hw|].
      rewrite H200. cbn [Z.eqb Pos.eqb negb].
      eapply returns_pureR_ok; [unfold response_json; rewrite Hj; reflexivity|].
      unfold pureR. rewrite (lacks_transcript_extract Hl). apply returns_ret. }
    split; [exact H|]. apply create_transcription_text. exact H.
Qed.

(* ===================================================================== *)
(** ** The statements at concrete inputs *)
(* ===================================================================== *)

(** Kokoro, two unfinished polls and then success: the audio comes back
    after the submission, three polls and one fetch.  Rev.ai, one
    unfinished poll and then "transcribed": the text comes back after the
    submission, two polls and one fetch. *)
Lemma C1_polling_protocol_witness :
  (let s := TTS.ReplicateKokoroProvider.init bare_env in
   let w := scripted [reply_created; reply_processing; reply_processing;
                      reply_succeeded; reply_audio] in
   returns (TTS.ReplicateKokoroProvider.synthesize (rt := ascii_runtime) s
              (lit "Hello") (lit "nova") 1%Q) w
     (advance w []
        ((kokoro_submit (rt := ascii_runtime) s (lit "Hello") (lit "nova") 1%Q
            :: poll_trace (kokoro_poll (rt := ascii_runtime) s (JStr (lit "p1")))
                 500 2)
         ++ [Got (lit "https://cdn.example/out.wav") []]))
     (Ok sample_audio))
  /\
  (let s := STT.RevAIProvider.init bare_env in
   let w := scripted [job "in_progress"; job "in_progress"; job "transcribed";
                      reply_transcript] in
   returns (STT.RevAIProvider.transcribe (rt := ascii_runtime) s sample_audio
              (lit "a.wav") (lit "audio/wav")) w
     (advance w []
        ((revai_submit s sample_audio (lit "a.wav") (lit "audio/wav")
            :: poll_trace (revai_poll (rt := ascii_runtime) s (JStr (lit "j1")))
                 1000 1)
         ++ [revai_fetch (rt := ascii_runtime) s (JStr (lit "j1"))]))
     (Ok (JStr (lit "Hello world foo bar")))).
Proof.
  split.
  - intros s w.
    exact (proj1 (proj2
             (proj1 C1_polling_protocol ascii_runtime s (lit "Hello") (lit "nova")
                1%Q w reply_created (JStr (lit "p1"))
                [reply_processing; reply_processing] reply_succeeded
                [Ok reply_audio] eq_refl eq_refl eq_refl eq_refl))
             (lit "https://cdn.example/out.wav") reply_audio [] eq_refl eq_refl
             eq_refl).
  - intros s w.
    exact (proj1 (proj2
             (proj2 C1_polling_protocol ascii_runtime s sample_audio (lit "a.wav")
                (lit "audio/wav") w (job "in_progress") (JStr (lit "j1"))
                [job "in_progress"] (job "transcribed")
                [Ok reply_transcript] eq_refl eq_refl eq_refl eq_refl))
             reply_transcript [] eq_refl eq_refl).
Defined.

Lemma C4_blank_input_is_rejected_witness :
  TTS.create_speech (Some canned_provider) blank_request
  = Ret (Raise (HTTPException 400 (lit "Input text is required"))).
Proof.
  apply (@C4_blank_input_is_rejected canned_provider blank_request).
  reflexivity.
Defined.

Lemma C5_provider_selection_witness :
  TTS.get_provider (rt := ascii_runtime) espeak_env
  = Raise (ValueError (lit "Unknown TTS provider: espeak. Available: piper, kokoro")).
Proof.
  apply (proj1 (proj1 C5_provider_selection ascii_runtime espeak_env)).
  vm_compute. intros [H | [H | H]]; [discriminate H | discriminate H | exact H].
Defined.

Lemma C6_voice_mapping_witness :
  TTS.ReplicateKokoroProvider.kokoro_voice (rt := ascii_runtime)
    (TTS.ReplicateKokoroProvider.init bare_env) (lit "Nova")
  = lit "af_nova".
Proof.
  apply (proj1 (proj2 (proj2
           (@C6_voice_mapping ascii_runtime bare_env (lit "Nova"))))).
  reflexivity.
Defined.

Lemma C7_refused_submission_is_raised_witness :
  let s := TTS.ReplicateKokoroProvider.init bare_env in
  let w := scripted [reply_unauthorized] in
  returns (TTS.ReplicateKokoroProvider.synthesize (rt := ascii_runtime) s
             (lit "Hello") (lit "nova") 1%Q) w
    (advance w []
       [kokoro_submit (rt := ascii_runtime) s (lit "Hello") (lit "nova") 1%Q])
    (Raise (HTTPException 401 (lit "Unauthenticated"))).
Proof.
  intros s w.
  apply (proj1 C7_refused_submission_is_raised ascii_runtime s (lit "Hello")
           (lit "nova") 1%Q w reply_unauthorized []).
  - reflexivity.
  - vm_compute. discriminate.
Defined.

Lemma C8_piper_tmp_file_removed_witness :
  exists w',
    returns (TTS.PiperProvider.synthesize (rt := ascii_runtime)
               (TTS.PiperProvider.init bare_env) (lit "Hello") (lit "nova") 1%Q)
      piper_world w' (Ok sample_audio)
    /\ disk w' (lit "/tmp/tmpq0.wav") = None.
Proof.
  refine (proj1 (proj1 (proj2
            (@C8_piper_tmp_file_removed ascii_runtime
               (TTS.PiperProvider.init bare_env) (lit "Hello") (lit "nova") 1%Q
               piper_world))
            (lit "/tmp/tmpq0.wav") _ _ (mkCompleted 0 [] [])
            eq_refl eq_refl eq_refl eq_refl) sample_audio eq_refl eq_refl).
Defined.

Lemma C10_missing_transcript_is_empty_text_witness :
  let w := scripted [reply_empty_object] in
  exists w',
    returns (STT.create_transcription (Some (STT.GroqProvider.make bare_env))
               sample_upload) w w' (Ok (JObj [ (lit "text", JStr []) ])).
Proof.
  intros w. eexists.
  refine (proj2 (proj1 C10_missing_transcript_is_empty_text bare_env
                   sample_upload w reply_empty_object [] []
                   eq_refl eq_refl eq_refl eq_refl)).
Defined.

(* ===================================================================== *)
(** ** The endpoints around a provider *)
(* ===================================================================== *)








(* ===================================================================== *)
(** ** Start-up, health and the provider listing *)
(* ===================================================================== *)

(** X3.  The TTS service after start-up in environment [env], asked for
    its health in a later environment [env'].  A selected Piper provider
    is reported healthy with the configured flag of the moment (whether
    [which piper] succeeds now); a selected Kokoro provider is reported
    healthy and configured whatever the environment has become, because
    it kept the token it was constructed with; when selection failed
    (unknown identifier, Piper without executable, Kokoro without token)
    the service is up and reports "degraded" with no provider. *)
Theorem X3_tts_health_after_startup :
  forall (rt : PyRuntime) env env',
    let n := str_lower (getenv_or env (lit "TTS_PROVIDER") (lit "piper")) in
    let health := TTS.health_check env' (TTS.startup env) in
    (n = lit "piper" -> which_piper env = true ->
       health = mkHealth (lit "healthy") (Some (lit "Piper")) (which_piper env'))
    /\ (n = lit "kokoro" ->
        opt_truthy (getenv env (lit "REPLICATE_API_TOKEN")) = true ->
        health = mkHealth (lit "healthy")
                   (Some (lit "Replicate Kokoro ("
                            ++ getenv_or env (lit "KOKORO_DEFAULT_VOICE")
                                 (lit "af_bella") ++ lit ")")) true)
    /\ ((n = lit "piper" /\ which_piper env = false)
        \/ (n = lit "kokoro"
            /\ opt_truthy (getenv env (lit "REPLICATE_API_TOKEN")) = false)
        \/ ~ In n [lit "piper"; lit "kokoro"] ->
        health = mkHealth (lit "degraded") None false).
Proof.
  intros rt env env' n health. subst health.
  assert (Hpiper : n = lit "piper" ->
    TTS.startup env
    = if which_piper env then Some (TTS.PiperProvider.make env) else None).
  { intros Hn. unfold TTS.startup, TTS.get_provider. fold n. rewrite Hn.
    replace (dict_get TTS.PROVIDERS (lit "piper"))
      with (Some (TTS.PiperProvider.make (rt := rt))) by reflexivity.
    change (TTS.is_configured (TTS.PiperProvider.make env) env)
      with (which_piper env).
    now destruct (which_piper env). }
  assert (Hkokoro : n = lit "kokoro" ->
    TTS.startup env
    = if opt_truthy (getenv env (lit "REPLICATE_API_TOKEN"))
      then Some (TTS.ReplicateKokoroProvider.make env) else None).
  { intros Hn. unfold TTS.startup, TTS.get_provider. fold n. rewrite Hn.
    replace (dict_get TTS.PROVIDERS (lit "kokoro"))
      with (Some (TTS.ReplicateKokoroProvider.make (rt := rt))) by reflexivity.
    change (TTS.is_configured (TTS.ReplicateKokoroProvider.make env) env)
      with (opt_truthy (getenv env (lit "REPLICATE_API_TOKEN"))).
    now destruct (opt_truthy (getenv env (lit "REPLICATE_API_TOKEN"))). }
  split; [|split].
  - intros Hn Hw. rewrite (Hpiper Hn), Hw. reflexivity.
  - intros Hn Ht. rewrite (Hkokoro Hn), Ht. unfold TTS.health_check.
    change (TTS.is_configured (TTS.ReplicateKokoroProvider.make env) env')
      with (opt_truthy (getenv env (lit "REPLICATE_API_TOKEN"))).
    rewrite Ht. reflexivity.
  - intros [[Hn Hw] | [[Hn Ht] | Hn]].
    + rewrite (Hpiper Hn), Hw. reflexivity.
    + rewrite (Hkokoro Hn), Ht. reflexivity.
    + unfold TTS.startup, TTS.get_provider. fold n.
      assert (Hk : dict_get TTS.PROVIDERS n = None) by now apply dict_get_None.
      rewrite Hk. reflexivity.
Qed.

(** X4.  The STT service after start-up in environment [env], asked for
    its health in a later environment [env'].  Each of the three
    providers kept the key it was constructed with, so a selected
    provider is reported configured whatever the environment has become;
    when selection failed the service is up and reports no provider and
    [False], with the status "healthy" all the same. *)
Theorem X4_stt_health_after_startup :
  forall (rt : PyRuntime) env env',
    let n := str_lower (getenv_or env (lit "STT_PROVIDER") (lit "groq")) in
    let health := STT.health_check env' (STT.startup env) in
    (n = lit "groq" -> opt_truthy (getenv env (lit "GROQ_API_KEY")) = true ->
       health = mkHealth (lit "healthy")
                  (Some (lit "Groq ("
                           ++ getenv_or env (lit "GROQ_STT_MODEL")
                                (lit "whisper-large-v3-turbo") ++ lit ")")) true)
    /\ (n = lit "revai" ->
        opt_truthy (getenv env (lit "REV_AI_ACCESS_TOKEN")) = true ->
        health = mkHealth (lit "healthy") (Some (lit "Rev.ai")) true)
    /\ (n = lit "deepgram" ->
        opt_truthy (getenv env (lit "DEEPGRAM_API_KEY")) = true ->
        health = mkHealth (lit "healthy") (Some (lit "Deepgram")) true)
    /\ ((n = lit "groq" /\ opt_truthy (getenv env (lit "GROQ_API_KEY")) = false)
        \/ (n = lit "revai"
            /\ opt_truthy (getenv env (lit "REV_AI_ACCESS_TOKEN")) = false)
        \/ (n = lit "deepgram"
            /\ opt_truthy (getenv env (lit "DEEPGRAM_API_KEY")) = false)
        \/ ~ In n [lit "groq"; lit "revai"; lit "deepgram"] ->
        health = mkHealth (lit "healthy") None false).
Proof.
  intros rt env env' n health. subst health.
  assert (Hgroq : n = lit "groq" ->
    STT.startup env
    = if opt_truthy (getenv env (lit "GROQ_API_KEY"))
      then Some (STT.GroqProvider.make env) else None).
  { intros Hn. unfold STT.startup, STT.get_provider. fold n. rewrite Hn.
    replace (dict_get STT.PROVIDERS (lit "groq"))
      with (Some STT.GroqProvider.make) by reflexivity.
    change (STT.is_configured (STT.GroqProvider.make env) env)
      with (opt_truthy (getenv env (lit "GROQ_API_KEY"))).
    now destruct (opt_truthy (getenv env (lit "GROQ_API_KEY"))). }
  assert (Hrevai : n = lit "revai" ->
    STT.startup env
    = if opt_truthy (getenv env (lit "REV_AI_ACCESS_TOKEN"))
      then Some (STT.RevAIProvider.make env) else None).
  { intros Hn. unfold STT.startup, STT.get_provider. fold n. rewrite Hn.
    replace (dict_get STT.PROVIDERS (lit "revai"))
      with (Some (STT.RevAIProvider.make (rt := rt))) by reflexivity.
    change (STT.is_configured (STT.RevAIProvider.make env) env)
      with (opt_truthy (getenv env (lit "REV_AI_ACCESS_TOKEN"))).
    now destruct (opt_truthy (getenv env (lit "REV_AI_ACCESS_TOKEN"))). }
  assert (Hdeepgram : n = lit "deepgram" ->
    STT.startup env
    = if opt_truthy (getenv env (lit "DEEPGRAM_API_KEY"))
      then Some (STT.DeepgramProvider.make env) else None).
  { intros Hn. unfold STT.startup, STT.get_provider. fold n. rewrite Hn.
    replace (dict_get STT.PROVIDERS (lit "deepgram"))
      with (Some STT.DeepgramProvider.make) by reflexivity.
    change (STT.is_configured (STT.DeepgramProvider.make env) env)
      with (opt_truthy (getenv env (lit "DEEPGRAM_API_KEY"))).
    now destruct (opt_truthy (getenv env (lit "DEEPGRAM_API_KEY"))). }
  split; [|split; [|split]].
  - intros Hn Hk. rewrite (Hgroq Hn), Hk. unfold STT.health_check.
    change (STT.is_configured (STT.GroqProvider.make env) env')
      with (opt_truthy (getenv env (lit "GROQ_API_KEY"))).
    rewrite Hk. reflexivity.
  - intros Hn Hk. rewrite (Hrevai Hn), Hk. unfold STT.health_check.
    change (STT.is_configured (STT.RevAIProvider.make env) env')
      with (opt_truthy (getenv env (lit "REV_AI_ACCESS_TOKEN"))).
    rewrite Hk. reflexivity.
  - intros Hn Hk. rewrite (Hdeepgram Hn), Hk. unfold STT.health_check.
    change (STT.is_configured (STT.DeepgramProvider.make env) env')
      with (opt_truthy (getenv env (lit "DEEPGRAM_API_KEY"))).
    rewrite Hk. reflexivity.
  - intros [[Hn Hk] | [[Hn Hk] | [[Hn Hk] | Hn]]].
    + rewrite (Hgroq Hn), Hk. reflexivity.
    + rewrite (Hrevai Hn), Hk. reflexivity.
    + rewrite (Hdeepgram Hn), Hk. reflexivity.
    + unfold STT.startup, STT.get_provider. fold n.
      assert (Hk : dict_get STT.PROVIDERS n = None) by now apply dict_get_None.
      rewrite Hk. reflexivity.
Qed.

Lemma dict_get_map {A B} (f : A -> B) (d : dict A) k :
  dict_get (List.map (fun item : pystr * A => let '(name, v) := item in
                                              (name, f v)) d) k
  = option_map f (dict_get d k).
Proof.
  induction d as [|[k' v] d IH]; simpl; [reflexivity|].
  destruct (str_eqb k' k); [reflexivity | exact IH].
Qed.

(** X5.  [GET /providers] of both services lists every registered
    identifier once, in the order of the registry, whichever provider is
    active, and the list does not depend on the active provider.  The
    entry of the identifier that the environment selects says
    "configured" exactly when selecting a provider in that environment
    succeeds. *)
Theorem X5_list_providers :
  (forall (rt : PyRuntime) env provider,
     let listing := TTSRoutes.list_providers env provider in
     let n := str_lower (getenv_or env (lit "TTS_PROVIDER") (lit "piper")) in
     dict_keys (Listing.available listing) = [lit "piper"; lit "kokoro"]
     /\ (forall provider',
           Listing.available (TTSRoutes.list_providers env provider')
           = Listing.available listing)
     /\ ((exists p, TTS.get_provider env = Ok p) <->
         (exists e, dict_get (Listing.available listing) n = Some e
                    /\ Listing.configured e = true)))
  /\
  (forall (rt : PyRuntime) env provider,
     let listing := STTRoutes.list_providers env provider in
     let n := str_lower (getenv_or env (lit "STT_PROVIDER") (lit "groq")) in
     dict_keys (Listing.available listing)
     = [lit "groq"; lit "revai"; lit "deepgram"]
     /\ (forall provider',
           Listing.available (STTRoutes.list_providers env provider')
           = Listing.available listing)
     /\ ((exists p, STT.get_provider env = Ok p) <->
         (exists e, dict_get (Listing.available listing) n = Some e
                    /\ Listing.configured e = true))).
Proof.
  split; intros rt env provider listing n.
  - split; [reflexivity|]. split; [reflexivity|].
    subst listing. unfold TTSRoutes.list_providers. cbn [Listing.available].
    rewrite (dict_get_map
               (fun cls : os_env -> TTS.TTSProvider =>
                  Listing.mkEntry (TTS.name (cls env))
                    (TTS.is_configured (cls env) env))).
    unfold TTS.get_provider. fold n.
    destruct (dict_get TTS.PROVIDERS n) as [cls|]; cbn [option_map].
    + destruct (TTS.is_configured (cls env) env) eqn:Hc; cbn [negb]; split.
      * intros _. eexists. split; reflexivity.
      * intros _. eauto.
      * intros [p Hp]. discriminate Hp.
      * intros [e [He Ht]]. injection He as <-. cbn in Ht. discriminate Ht.
    + split; [intros [p Hp]; discriminate Hp | intros [e [He _]]; discriminate He].
  - split; [reflexivity|]. split; [reflexivity|].
    subst listing. unfold STTRoutes.list_providers. cbn [Listing.available].
    rewrite (dict_get_map
               (fun cls : os_env -> STT.STTProvider =>
                  Listing.mkEntry (STT.name (cls env))
                    (STT.is_configured (cls env) env))).
    unfold STT.get_provider. fold n.
    destruct (dict_get STT.PROVIDERS n) as [cls|]; cbn [option_map].
    + destruct (STT.is_configured (cls env) env) eqn:Hc; cbn [negb]; split.
      * intros _. eexists. split; reflexivity.
      * intros _. eauto.
      * intros [p Hp]. discriminate Hp.
      * intros [e [He Ht]]. injection He as <-. cbn in Ht. discriminate Ht.
    + split; [intros [p Hp]; discriminate Hp | intros [e [He _]]; discriminate He].
Qed.

(* ===================================================================== *)
(** ** Voices *)
(* ===================================================================== *)

(** X6.  The voice the Kokoro provider sends to the backend is a voice
    of its list of known voices or the configured default voice; when the
    configured default is itself a known voice, no request carries an
    unknown voice, whatever name the caller gave. *)
Theorem X6_kokoro_voice_is_known :
  forall (rt : PyRuntime) (ks : TTS.ReplicateKokoroProvider.self) voice,
    let known v := str_in v (TTS.ReplicateKokoroProvider.available_voices ks) in
    (known (TTS.ReplicateKokoroProvider.kokoro_voice ks voice) = true
     \/ TTS.ReplicateKokoroProvider.kokoro_voice ks voice
        = TTS.ReplicateKokoroProvider.default_voice ks)
    /\ (known (TTS.ReplicateKokoroProvider.default_voice ks) = true ->
        known (TTS.ReplicateKokoroProvider.kokoro_voice ks voice) = true).
Proof.
  intros rt ks voice known. subst known.
  unfold TTS.ReplicateKokoroProvider.kokoro_voice.
  set (v := dict_get_or (TTS.ReplicateKokoroProvider.voice_map ks)
              (str_lower voice) voice).
  destruct (str_in v (TTS.ReplicateKokoroProvider.available_voices ks)) eqn:Hk;
    cbn [negb].
  - split; [left; exact Hk | intros _; exact Hk].
  - split; [right; reflexivity | intros Hd; exact Hd].
Qed.

(** X7.  The Piper provider's [synthesize] makes no use of the speed it
    is given nor of the configured default voice: two providers that
    agree on the voices directory run the same program for the same text
    and voice, whatever the speeds and whatever [PIPER_DEFAULT_VOICE]
    says. *)
Theorem X7_piper_ignores_speed_and_default_voice :
  forall (rt : PyRuntime) env env' text voice speed speed',
    getenv env (lit "PIPER_VOICES_DIR") = getenv env' (lit "PIPER_VOICES_DIR") ->
    TTS.PiperProvider.synthesize (TTS.PiperProvider.init env) text voice speed
    = TTS.PiperProvider.synthesize (TTS.PiperProvider.init env') text voice
        speed'.
Proof.
  intros rt env env' text voice speed speed' Hdir.
  unfold TTS.PiperProvider.synthesize, TTS.PiperProvider._get_voice_path,
    TTS.PiperProvider.init, getenv_or.
  cbn [TTS.PiperProvider.voices_dir TTS.PiperProvider.voice_map].
  rewrite Hdir. reflexivity.
Qed.

(* ===================================================================== *)
(** ** The polling loops, round by round *)
(* ===================================================================== *)

(** Any single call comes to an end. *)
Lemma trigger_ends {T} (e : ioE T) w : exists w' r, returns (ITree.trigger e) w w' r.
Proof. eexists _, _. apply returns_trigger. Qed.

(** A reply that is not pending either has no readable status or has
    one of the terminal statuses. *)
Lemma not_pending_inv terminal resp j st :
  pending terminal resp = false ->
  response_json resp = Ok j -> json_item j (lit "status") = Ok st ->
  existsb (json_is_str st) terminal = true.
Proof.
  unfold pending, status_of, and_then. intros H Hj Hst.
  rewrite Hj, Hst in H. now apply negb_false_iff in H.
Qed.

Section KokoroRounds.
Context {rt : PyRuntime}.
Import TTS.ReplicateKokoroProvider.
Variables (s : self) (prediction_id : json).

(** A poll that the client fails to complete ends the round with the
    client's exception. *)
Lemma kokoro_poll_raises k w e rest :
  replies w = Raise e :: rest ->
  returns (poll_once s prediction_id k) w
    (advance w rest [kokoro_poll s prediction_id]) (Raise e).
Proof.
  intros Hw. unfold poll_once, poll_prediction.
  eapply returns_bindR_raise. apply returns_get. exact Hw.
Qed.

(** A reply that is not pending ends the loop in this round. *)
Lemma kokoro_round_ends k w resp rest :
  replies w = Ok resp :: rest ->
  pending kokoro_terminal resp = false ->
  exists w' (out : result pybytes),
    returns (poll_once s prediction_id k) w w'
      match out with Ok a => Ok (inr a) | Raise e => Raise e end.
Proof.
  intros Hw Hr. unfold poll_once, poll_prediction.
  pose proof (@returns_get w
                (predictions_url ++ lit "/" ++ format_value prediction_id)
                [ (lit "Authorization", bearer (lit "Bearer ") (api_token s)) ]
                _ _ Hw) as Hget.
  destruct (response_json resp) as [j|e] eqn:Hj.
  2:{ exists (advance w rest [kokoro_poll s prediction_id]), (Raise e).
      eapply returns_bindR_ok; [exact Hget|].
      eapply returns_pureR_raise. exact Hj. }
  destruct (json_item j (lit "status")) as [st|e] eqn:Hst.
  2:{ exists (advance w rest [kokoro_poll s prediction_id]), (Raise e).
      eapply returns_bindR_ok; [exact Hget|].
      eapply returns_pureR_ok; [exact Hj|].
      eapply returns_pureR_raise. exact Hst. }
  pose proof (not_pending_inv _ _ Hr Hj Hst) as Hterm.
  cbn [existsb kokoro_terminal] in Hterm.
  assert (Hhead : forall w' out,
    returns
      (if json_is_str st (lit "succeeded") then
         output_url <-? pureR (json_item j (lit "output")) ;;;
         audio_response <-? get_json_url output_url ;;;
         if negb (status_code audio_response =? 200)%Z then
           Ret (Raise (HTTPException 500 (lit "Failed to download audio")))
         else Ret (Ok (inr (content audio_response)))
       else if json_is_str st (lit "failed") then
         error <-? pureR (json_get j (lit "error") (JStr (lit "Unknown error"))) ;;;
         Ret (Raise (HTTPException 500 (lit "TTS failed: " ++ format_value error)))
       else if json_is_str st (lit "canceled") then
         Ret (Raise (HTTPException 500 (lit "TTS prediction was canceled")))
       else
         ITree.trigger (Sleep 500) ;; Ret (Ok (inl (S k))))
      (advance w rest [kokoro_poll s prediction_id]) w' out ->
    returns (poll_once s prediction_id k) w w' out).
  { intros w' out H. unfold poll_once, poll_prediction.
    eapply returns_bindR_ok; [exact Hget|].
    eapply returns_pureR_ok; [exact Hj|].
    eapply returns_pureR_ok; [exact Hst|]. exact H. }
  set (w1 := advance w rest [kokoro_poll s prediction_id]) in *.
  destruct (json_is_str st (lit "succeeded")) eqn:Hs.
  - destruct (json_item j (lit "output")) as [url|e] eqn:Hout.
    2:{ exists w1, (Raise e). apply Hhead.
        eapply returns_pureR_raise. reflexivity. }
    assert (Hurl : exists w2 r2, returns (get_json_url url) w1 w2 r2).
    { destruct url; try (eexists _, _; apply returns_ret).
      apply trigger_ends. }
    destruct Hurl as [w2 [[audio|e] H2]].
    + destruct (status_code audio =? 200)%Z eqn:H200.
      * exists w2, (Ok (content audio)). apply Hhead.
        eapply returns_pureR_ok; [reflexivity|].
        eapply returns_bindR_ok; [exact H2|].
        rewrite H200. apply returns_ret.
      * exists w2, (Raise (HTTPException 500 (lit "Failed to download audio"))).
        apply Hhead.
        eapply returns_pureR_ok; [reflexivity|].
        eapply returns_bindR_ok; [exact H2|].
        rewrite H200. apply returns_ret.
    + exists w2, (Raise e). apply Hhead.
      eapply returns_pureR_ok; [reflexivity|].
      eapply returns_bindR_raise. exact H2.
  - destruct (json_is_str st (lit "failed")) eqn:Hf.
    + assert (Herr : exists err,
        json_get j (lit "error") (JStr (lit "Unknown error")) = Ok err).
      { destruct j; simpl in Hst; try discriminate. simpl.
        destruct (dict_get fields (lit "error")); eauto. }
      destruct Herr as [err Herr].
      exists w1,
        (Raise (HTTPException 500 (lit "TTS failed: " ++ format_value err))).
      apply Hhead.
      eapply returns_pureR_ok; [exact Herr|]. apply returns_ret.
    + destruct (json_is_str st (lit "canceled")) eqn:Hc;
        [|discriminate Hterm].
      exists w1, (Raise (HTTPException 500 (lit "TTS prediction was canceled"))).
      apply Hhead. apply returns_ret.
Qed.
End KokoroRounds.

Section RevAIRounds.
Context {rt : PyRuntime}.
Import STT.RevAIProvider.
Variables (s : self) (job_id : json).

(** A poll that the client fails to complete ends the round with the
    client's exception. *)
Lemma revai_poll_raises k w e rest :
  replies w = Raise e :: rest ->
  returns (poll_once s job_id k) w (advance w rest [revai_poll s job_id])
    (Raise e).
Proof.
  intros Hw. unfold poll_once.
  eapply returns_bindR_raise. apply returns_get. exact Hw.
Qed.

(** A reply that is not pending ends the loop in this round. *)
Lemma revai_round_ends k w resp rest :
  replies w = Ok resp :: rest ->
  pending revai_terminal resp = false ->
  exists w' (out : result json),
    returns (poll_once s job_id k) w w'
      match out with Ok a => Ok (inr a) | Raise e => Raise e end.
Proof.
  intros Hw Hr.
  pose proof (@returns_get w (job_url s job_id) (headers s) _ _ Hw) as Hget.
  set (w1 := advance w rest [Got (job_url s job_id) (headers s)]) in *.
  destruct (response_json resp) as [j|e] eqn:Hj.
  2:{ exists w1, (Raise e). unfold poll_once.
      eapply returns_bindR_ok; [exact Hget|].
      eapply returns_pureR_raise. exact Hj. }
  destruct (json_item j (lit "status")) as [st|e] eqn:Hst.
  2:{ exists w1, (Raise e). unfold poll_once.
      eapply returns_bindR_ok; [exact Hget|].
      eapply returns_pureR_ok; [exact Hj|].
      eapply returns_pureR_raise. exact Hst. }
  pose proof (not_pending_inv _ _ Hr Hj Hst) as Hterm.
  cbn [existsb revai_terminal] in Hterm.
  destruct (json_is_str st (lit "transcribed")) eqn:Hs.
  - destruct (trigger_ends
                (HttpGet (job_url s job_id ++ lit "/transcript")
                   (headers s ++
                    [ (lit "Accept",
                       lit "application/vnd.rev.transcript.v1.0+json") ])) w1)
      as [w2 [[tr|e] H2]].
    + destruct (response_json tr) as [tj|e] eqn:Htj.
      * destruct (extract_text tj) as [t|e] eqn:Ht.
        -- exists w2, (Ok (JStr t)). unfold poll_once.
           eapply returns_bindR_ok; [exact Hget|].
           eapply returns_pureR_ok; [exact Hj|].
           eapply returns_pureR_ok; [exact Hst|]. rewrite Hs.
           eapply returns_bindR_ok; [exact H2|].
           eapply returns_pureR_ok; [exact Htj|].
           eapply returns_pureR_ok; [exact Ht|]. apply returns_ret.
        -- exists w2, (Raise e). unfold poll_once.
           eapply returns_bindR_ok; [exact Hget|].
           eapply returns_pureR_ok; [exact Hj|].
           eapply returns_pureR_ok; [exact Hst|]. rewrite Hs.
           eapply returns_bindR_ok; [exact H2|].
           eapply returns_pureR_ok; [exact Htj|].
           eapply returns_pureR_raise. exact Ht.
      * exists w2, (Raise e). unfold poll_once.
        eapply returns_bindR_ok; [exact Hget|].
        eapply returns_pureR_ok; [exact Hj|].
        eapply returns_pureR_ok; [exact Hst|]. rewrite Hs.
        eapply returns_bindR_ok; [exact H2|].
        eapply returns_pureR_raise. exact Htj.
    + exists w2, (Raise e). unfold poll_once.
      eapply returns_bindR_ok; [exact Hget|].
      eapply returns_pureR_ok; [exact Hj|].
      eapply returns_pureR_ok; [exact Hst|]. rewrite Hs.
      eapply returns_bindR_raise. exact H2.
  - destruct (json_is_str st (lit "failed")) eqn:Hf; [|discriminate Hterm].
    exists w1, (Raise (HTTPException 500 (lit "Rev.ai transcription failed"))).
    unfold poll_once.
    eapply returns_bindR_ok; [exact Hget|].
    eapply returns_pureR_ok; [exact Hj|].
    eapply returns_pureR_ok; [exact Hst|]. rewrite Hs, Hf. apply returns_ret.
Qed.
End RevAIRounds.

(** An HTTP call when the backend has stopped answering. *)
Lemma returns_get_unanswered w url h :
  replies w = [] ->
  returns (ITree.trigger (HttpGet url h)) w (advance w [] [Got url h])
    (Raise (PyError (lit "ConnectError") (lit "no reply"))).
Proof.
  intros Hw.
  pose proof (returns_trigger (HttpGet url h) w) as H.
  simpl in H. unfold round_trip in H. rewrite Hw in H. exact H.
Qed.

(** A polling loop whose rounds behave as the two providers' do comes to
    an end on every script: each round that goes on has used up a
    reply. *)
Lemma polling_ends {A} (body : nat -> itree ioE (result (nat + A)))
    (poll : call) (ms : N) (P : response -> bool) :
  (forall k w r rest, replies w = Ok r :: rest -> P r = true ->
     returns (body k) w (advance w rest [poll; Slept ms]) (Ok (inl (S k)))) ->
  (forall k w r rest, replies w = Ok r :: rest -> P r = false ->
     exists w' (out : result A),
       returns (body k) w w'
         match out with Ok a => Ok (inr a) | Raise e => Raise e end) ->
  (forall k w e rest, replies w = Raise e :: rest ->
     returns (body k) w (advance w rest [poll]) (Raise e)) ->
  (forall k w, replies w = [] ->
     exists w' e, returns (body k) w w' (Raise e)) ->
  forall w k, exists w' out, returns (while_true body k) w w' out.
Proof.
  intros Hon Hoff Hraise Hnone w.
  remember (length (replies w)) as n eqn:Hn.
  revert w Hn. induction n as [|n IH]; intros w Hn k.
  - destruct (replies w) as [|r rest] eqn:Hw; [|discriminate Hn].
    destruct (Hnone k w Hw) as [w' [e H]].
    exists w', (Raise e). now apply returns_while_raise.
  - destruct (replies w) as [|[r|e] rest] eqn:Hw; [discriminate Hn | |].
    + destruct (P r) eqn:Hp.
      * destruct (IH (advance w rest [poll; Slept ms])) with (k := S k)
          as [w' [out H]]; [simpl in *; congruence|].
        exists w', out. eapply returns_while_again; [|exact H].
        exact (Hon k w r rest Hw Hp).
      * destruct (Hoff k w r rest Hw Hp) as [w' [out H]].
        exists w', out. now apply returns_while_last.
    + exists (advance w rest [poll]), (Raise e).
      apply returns_while_raise. exact (Hraise k w e rest Hw).
Qed.

(** X8.  One round of either polling loop, by the reply its status poll
    gets.  On a reply with a readable, non-terminal status the round
    sleeps the fixed interval and the loop goes on; on any other reply
    (a terminal status, a body that does not decode, a body without
    ["status"]) the round ends the loop with a value or an exception; on
    an exception of the client the round ends the loop with that
    exception and no further call. *)
Theorem X8_polling_round :
  (forall (rt : PyRuntime) (s : TTS.ReplicateKokoroProvider.self) id k w r rest,
     replies w = r :: rest ->
     let round := TTS.ReplicateKokoroProvider.poll_once s id k in
     match r with
     | Ok resp =>
         if pending kokoro_terminal resp then
           returns round w (advance w rest [kokoro_poll s id; Slept 500])
             (Ok (inl (S k)))
         else
           exists w' (out : result pybytes),
             returns round w w'
               match out with Ok a => Ok (inr a) | Raise e => Raise e end
     | Raise e => returns round w (advance w rest [kokoro_poll s id]) (Raise e)
     end)
  /\
  (forall (rt : PyRuntime) (s : STT.RevAIProvider.self) id k w r rest,
     replies w = r :: rest ->
     let round := STT.RevAIProvider.poll_once s id k in
     match r with
     | Ok resp =>
         if pending revai_terminal resp then
           returns round w (advance w rest [revai_poll s id; Slept 1000])
             (Ok (inl (S k)))
         else
           exists w' (out : result json),
             returns round w w'
               match out with Ok a => Ok (inr a) | Raise e => Raise e end
     | Raise e => returns round w (advance w rest [revai_poll s id]) (Raise e)
     end).
Proof.
  split; intros rt s id k w [resp|e] rest Hw round; subst round.
  - destruct (pending kokoro_terminal resp) eqn:Hp.
    + eapply kokoro_round; eassumption.
    + eapply kokoro_round_ends; eassumption.
  - eapply kokoro_poll_raises; eassumption.
  - destruct (pending revai_terminal resp) eqn:Hp.
    + eapply revai_round; eassumption.
    + eapply revai_round_ends; eassumption.
  - eapply revai_poll_raises; eassumption.
Qed.

(** X9.  Against every scripted backend, a call of either asynchronous
    provider comes to an end, with a value or an exception: the loop only
    goes on after a reply it has used up, and the client raises once the
    backend has stopped answering. *)
Theorem X9_async_providers_end :
  (forall (rt : PyRuntime) (s : TTS.ReplicateKokoroProvider.self)
      input voice speed w,
     exists w' out,
       returns (TTS.ReplicateKokoroProvider.synthesize s input voice speed)
         w w' out)
  /\
  (forall (rt : PyRuntime) (s : STT.RevAIProvider.self)
      audio filename content_type w,
     exists w' out,
       returns (STT.RevAIProvider.transcribe s audio filename content_type)
         w w' out).
Proof.
  split.
  - intros rt s input voice speed w.
    unfold TTS.ReplicateKokoroProvider.synthesize.
    destruct (trigger_ends
                (HttpPost TTS.ReplicateKokoroProvider.predictions_url
                   [ (lit "Authorization",
                      bearer (lit "Bearer ")
                        (TTS.ReplicateKokoroProvider.api_token s));
                     (lit "Content-Type", lit "application/json") ]
                   (JsonBody
                      (JObj [ (lit "version",
                               JStr (TTS.ReplicateKokoroProvider.version s));
                              (lit "input",
                               JObj [ (lit "text", JStr input);
                                      (lit "voice",
                                       JStr (TTS.ReplicateKokoroProvider.kokoro_voice
                                               s voice));
                                      (lit "speed", JNum speed) ]) ]))) w)
      as [w1 [[resp|e] H1]].
    2:{ exists w1, (Raise e). eapply returns_bindR_raise. exact H1. }
    destruct (status_code resp =? 201)%Z eqn:H201.
    2:{ exists w1, (Raise (upstream_error resp)).
        eapply returns_bindR_ok; [exact H1|]. rewrite H201. apply returns_ret. }
    destruct (response_json resp) as [j|e] eqn:Hj.
    2:{ exists w1, (Raise e). eapply returns_bindR_ok; [exact H1|].
        rewrite H201. eapply returns_pureR_raise. exact Hj. }
    destruct (json_item j (lit "id")) as [id|e] eqn:Hid.
    2:{ exists w1, (Raise e). eapply returns_bindR_ok; [exact H1|].
        rewrite H201. eapply returns_pureR_ok; [exact Hj|].
        eapply returns_pureR_raise. exact Hid. }
    destruct (@polling_ends _ (TTS.ReplicateKokoroProvider.poll_once s id)
                (kokoro_poll s id) 500 (pending kokoro_terminal)
                (kokoro_round s id) (kokoro_round_ends s id)
                (kokoro_poll_raises s id)) with (w := w1) (k := 0%nat)
      as [w' [out H]].
    { intros k w0 Hw0. eexists _, _.
      unfold TTS.ReplicateKokoroProvider.poll_once,
        TTS.ReplicateKokoroProvider.poll_prediction.
      eapply returns_bindR_raise. apply returns_get_unanswered. exact Hw0. }
    exists w', out. eapply returns_bindR_ok; [exact H1|].
    rewrite H201. eapply returns_pureR_ok; [exact Hj|].
    eapply returns_pureR_ok; [exact Hid|]. exact H.
  - intros rt s audio filename content_type w.
    unfold STT.RevAIProvider.transcribe.
    destruct (trigger_ends
                (HttpPost (STT.RevAIProvider.base_url s ++ lit "/jobs")
                   (STT.RevAIProvider.headers s)
                   (Multipart (lit "media") filename audio content_type
                      STT.RevAIProvider.data)) w)
      as [w1 [[resp|e] H1]].
    2:{ exists w1, (Raise e). eapply returns_bindR_raise. exact H1. }
    destruct (status_code resp =? 200)%Z eqn:H200.
    2:{ exists w1, (Raise (upstream_error resp)).
        eapply returns_bindR_ok; [exact H1|]. rewrite H200. apply returns_ret. }
    destruct (response_json resp) as [j|e] eqn:Hj.
    2:{ exists w1, (Raise e). eapply returns_bindR_ok; [exact H1|].
        rewrite H200. eapply returns_pureR_raise. exact Hj. }
    destruct (json_item j (lit "id")) as [id|e] eqn:Hid.
    2:{ exists w1, (Raise e). eapply returns_bindR_ok; [exact H1|].
        rewrite H200. eapply returns_pureR_ok; [exact Hj|].
        eapply returns_pureR_raise. exact Hid. }
    destruct (@polling_ends _ (STT.RevAIProvider.poll_once s id)
                (revai_poll s id) 1000 (pending revai_terminal)
                (revai_round s id) (revai_round_ends s id)
                (revai_poll_raises s id)) with (w := w1) (k := 0%nat)
      as [w' [out H]].
    { intros k w0 Hw0. eexists _, _.
      unfold STT.RevAIProvider.poll_once.
      eapply returns_bindR_raise. apply returns_get_unanswered. exact Hw0. }
    exists w', out. eapply returns_bindR_ok; [exact H1|].
    rewrite H200. eapply returns_pureR_ok; [exact Hj|].
    eapply returns_pureR_ok; [exact Hid|]. exact H.
Qed.

(** X10.  When the client raises at a status poll (a timeout, a broken
    connection) after [N] unfinished replies, either asynchronous
    provider raises that exception after the submission and [N+1] polls
    and issues no further call. *)
Theorem X10_client_exception_ends_polling :
  (forall (rt : PyRuntime) (s : TTS.ReplicateKokoroProvider.self)
      input voice speed w created id pend e rest,
     replies w = Ok created :: List.map Ok pend ++ Raise e :: rest ->
     status_code created = 201%Z ->
     job_of created = Ok id ->
     forallb (pending kokoro_terminal) pend = true ->
     returns (TTS.ReplicateKokoroProvider.synthesize s input voice speed) w
       (advance w rest
          (kokoro_submit s input voice speed
             :: poll_trace (kokoro_poll s id) 500 (length pend)))
       (Raise e))
  /\
  (forall (rt : PyRuntime) (s : STT.RevAIProvider.self)
      audio filename content_type w created id pend e rest,
     replies w = Ok created :: List.map Ok pend ++ Raise e :: rest ->
     status_code created = 200%Z ->
     job_of created = Ok id ->
     forallb (pending revai_terminal) pend = true ->
     returns (STT.RevAIProvider.transcribe s audio filename content_type) w
       (advance w rest
          (revai_submit s audio filename content_type
             :: poll_trace (revai_poll s id) 1000 (length pend)))
       (Raise e)).
Proof.
  split.
  - intros rt s input voice speed w created id pend e rest Hw H201 Hid Hpend.
    eapply kokoro_last_round; [exact Hw | exact H201 | exact Hid | exact Hpend |].
    eapply returns_conv; [apply kokoro_poll_raises; reflexivity|]. same_world.
  - intros rt s audio filename content_type w created id pend e rest
      Hw H200 Hid Hpend.
    eapply revai_last_round; [exact Hw | exact H200 | exact Hid | exact Hpend |].
    eapply returns_conv; [apply revai_poll_raises; reflexivity|]. same_world.
Qed.

(** X11.  A submission that is accepted (201 for Kokoro, 200 for Rev.ai)
    but whose body does not decode, or decodes to something without an
    ["id"], makes the provider raise the decoding or lookup error right
    after the submission: no status poll is issued. *)
Theorem X11_accepted_submission_without_id :
  (forall (rt : PyRuntime) (s : TTS.ReplicateKokoroProvider.self)
      input voice speed w created e rest,
     replies w = Ok created :: rest ->
     status_code created = 201%Z ->
     job_of created = Raise e ->
     returns (TTS.ReplicateKokoroProvider.synthesize s input voice speed) w
       (advance w rest [kokoro_submit s input voice speed]) (Raise e))
  /\
  (forall (rt : PyRuntime) (s : STT.RevAIProvider.self)
      audio filename content_type w created e rest,
     replies w = Ok created :: rest ->
     status_code created = 200%Z ->
     job_of created = Raise e ->
     returns (STT.RevAIProvider.transcribe s audio filename content_type) w
       (advance w rest [revai_submit s audio filename content_type]) (Raise e)).
Proof.
  split.
  - intros rt s input voice speed w created e rest Hw H201 Hid.
    unfold TTS.ReplicateKokoroProvider.synthesize,
      TTS.ReplicateKokoroProvider.create_prediction.
    eapply returns_bindR_ok; [apply returns_post; exact Hw|].
    rewrite H201. cbn [Z.eqb Pos.eqb negb].
    unfold job_of, and_then in Hid.
    destruct (response_json created) as [j|e'] eqn:Hj.
    + eapply returns_pureR_ok; [reflexivity|].
      eapply returns_pureR_raise. exact Hid.
    + injection Hid as <-. eapply returns_pureR_raise. reflexivity.
  - intros rt s audio filename content_type w created e rest Hw H200 Hid.
    unfold STT.RevAIProvider.transcribe.
    eapply returns_bindR_ok; [apply returns_post; exact Hw|].
    rewrite H200. cbn [Z.eqb Pos.eqb negb].
    unfold job_of, and_then in Hid.
    destruct (response_json created) as [j|e'] eqn:Hj.
    + eapply returns_pureR_ok; [reflexivity|].
      eapply returns_pureR_raise. exact Hid.
    + injection Hid as <-. eapply returns_pureR_raise. reflexivity.
Qed.

(** X12.  A job submission that Rev.ai answers with a status other than
    200 makes the provider raise an [HTTPException] with that status and
    the body text; no status poll is issued. *)
Theorem X12_revai_refused_submission :
  forall (rt : PyRuntime) (s : STT.RevAIProvider.self)
      audio filename content_type w resp rest,
    replies w = Ok resp :: rest ->
    status_code resp <> 200%Z ->
    returns (STT.RevAIProvider.transcribe s audio filename content_type) w
      (advance w rest [revai_submit s audio filename content_type])
      (Raise (HTTPException (status_code resp) (text resp))).
Proof.
  intros rt s audio filename content_type w resp rest Hw Hne.
  unfold STT.RevAIProvider.transcribe.
  eapply returns_bindR_ok; [apply returns_post; exact Hw|].
  apply Z.eqb_neq in Hne. rewrite Hne. simpl. apply returns_ret.
Qed.

(** X13.  The Rev.ai provider does not look at the status code of the
    transcript fetch: once the job is "transcribed", a transcript reply
    of any status whose body is a JSON object without ["monologues"] (an
    error object, say) makes [transcribe] return the empty string. *)
Theorem X13_revai_transcript_status_unchecked :
  forall (rt : PyRuntime) (s : STT.RevAIProvider.self)
      audio filename content_type w created id pend final tr fields rest,
    replies w
    = Ok created :: List.map Ok pend ++ Ok final :: Ok tr :: rest ->
    status_code created = 200%Z ->
    job_of created = Ok id ->
    forallb (pending revai_terminal) pend = true ->
    has_status (lit "transcribed") final = true ->
    json_body tr = Some (JObj fields) ->
    dict_get fields (lit "monologues") = None ->
    returns (STT.RevAIProvider.transcribe s audio filename content_type) w
      (advance w rest
         ((revai_submit s audio filename content_type
             :: poll_trace (revai_poll s id) 1000 (length pend))
          ++ [revai_fetch s id]))
      (Ok (JStr [])).
Proof.
  intros rt s audio filename content_type w created id pend final tr fields
    rest Hw H200 Hid Hpend Hfin Htr Hno.
  assert (Ht : transcript_of tr = Ok []).
  { unfold transcript_of, response_json, and_then. rewrite Htr.
    unfold STT.RevAIProvider.extract_text. cbn [json_get]. rewrite Hno.
    reflexivity. }
  eapply revai_last_round; [exact Hw | exact H200 | exact Hid | exact Hpend |].
  eapply returns_conv.
  - pose proof (revai_transcribed s id (length pend)
      (advance w (Ok final :: Ok tr :: rest)
         (revai_submit s audio filename content_type
            :: rounds (revai_poll s id) 1000 (length pend)))
      eq_refl Hfin) as H.
    rewrite Ht in H. exact H.
  - same_world.
Qed.

(* ===================================================================== *)
(** ** What the transcription providers return *)
(* ===================================================================== *)

Lemma extract_text_transcript (t : transcript) :
  STT.RevAIProvider.extract_text (transcript_json t) = Ok (reconstructed t).
Proof.
  unfold STT.RevAIProvider.extract_text, transcript_json.
  cbn [json_get dict_get].
  replace (str_eqb (lit "monologues") (lit "monologues")) with true by reflexivity.
  cbn [and_then STT.RevAIProvider.json_iter].
  rewrite monologue_values_transcript. cbn [and_then].
  rewrite str_items_strings. reflexivity.
Qed.

Lemma filter_idem {A} (f : A -> bool) l : filter f (filter f l) = filter f l.
Proof.
  induction l as [|x l IH]; simpl; [reflexivity|].
  destruct (f x) eqn:Hx; simpl; [rewrite Hx, IH|]; auto.
Qed.

Lemma filter_none {A} (f : A -> bool) l :
  (forall x, In x l -> f x = false) -> filter f l = [].
Proof.
  induction l as [|x l IH]; simpl; [reflexivity|]. intros H.
  rewrite (H x (or_introl eq_refl)). apply IH. intros y Hy. apply H. now right.
Qed.

(** X14.  The text made of a Rev.ai transcript keeps nothing but the
    text elements: punctuation and other elements, and the division into
    monologues, leave no trace.  The text of a transcript equals the text
    of the single monologue that holds its text elements, and a
    transcript without text elements gives the empty string. *)
Theorem X14_transcript_text_keeps_text_elements_only :
  forall (t : transcript) sp,
    let all := concat (List.map elements t) in
    STT.RevAIProvider.extract_text (transcript_json t)
    = STT.RevAIProvider.extract_text
        (transcript_json [mkMonologue sp (filter is_text all)])
    /\ ((forall e, In e all -> is_text e = false) ->
        STT.RevAIProvider.extract_text (transcript_json t) = Ok []).
Proof.
  intros t sp all. rewrite !extract_text_transcript.
  unfold reconstructed, text_elements. fold all.
  cbn [List.map concat elements]. rewrite app_nil_r, filter_idem.
  split; [reflexivity|].
  intros Hno. now rewrite (filter_none _ _ Hno).
Qed.

(** X15.  A Groq reply of status 200 whose JSON object has a ["text"]
    makes [transcribe] return the value of that field as it is, whatever
    JSON value it is, and the endpoint answer with [{"text": value}]. *)
Theorem X15_groq_returns_text_field :
  forall env file w resp fields v rest,
    let s := STT.GroqProvider.init env in
    let w' := advance w rest
                [groq_submit s (STT.file_bytes file) (upload_filename file)
                   (upload_content_type file)] in
    replies w = Ok resp :: rest ->
    status_code resp = 200%Z ->
    json_body resp = Some (JObj fields) ->
    dict_get fields (lit "text") = Some v ->
    returns (STT.GroqProvider.transcribe s (STT.file_bytes file)
               (upload_filename file) (upload_content_type file)) w w' (Ok v)
    /\ returns (STT.create_transcription (Some (STT.GroqProvider.make env)) file)
         w w' (Ok (JObj [ (lit "text", v) ])).
Proof.
  intros env file w resp fields v rest s w' Hw H200 Hj Ht.
  assert (H : returns (STT.GroqProvider.transcribe s (STT.file_bytes file)
                         (upload_filename file) (upload_content_type file))
                w w' (Ok v)).
  { unfold STT.GroqProvider.transcribe.
    eapply returns_bindR_ok; [apply returns_post; exact Hw|].
    rewrite H200. cbn [Z.eqb Pos.eqb negb].
    eapply returns_pureR_ok; [unfold response_json; rewrite Hj; reflexivity|].
    unfold pureR. cbn [json_get]. rewrite Ht. apply returns_ret. }
  split; [exact H|]. apply create_transcription_text. exact H.
Qed.

(** X16.  A Deepgram reply of status 200 makes [transcribe] return the
    ["transcript"] of the first alternative of the first channel;
    further channels and alternatives are not looked at.  The request
    carried the upload's content type, or "audio/wav" when the upload
    had none. *)
Theorem X16_deepgram_returns_first_alternative :
  forall env file w resp body results channel more fields more' v rest,
    let s := STT.DeepgramProvider.init env in
    let w' := advance w rest
                [Posted (lit "https://api.deepgram.com/v1/listen?model=nova-2&language=en")
                   [ (lit "Authorization",
                      bearer (lit "Token ") (getenv env (lit "DEEPGRAM_API_KEY")));
                     (lit "Content-Type", upload_content_type file) ]
                   (RawBody (STT.file_bytes file))] in
    replies w = Ok resp :: rest ->
    status_code resp = 200%Z ->
    json_body resp = Some body ->
    json_get body (lit "results") (JObj []) = Ok results ->
    json_get results (lit "channels") (JArr []) = Ok (JArr (channel :: more)) ->
    json_get channel (lit "alternatives") (JArr [])
      = Ok (JArr (JObj fields :: more')) ->
    dict_get fields (lit "transcript") = Some v ->
    returns (STT.DeepgramProvider.transcribe s (STT.file_bytes file)
               (upload_filename file) (upload_content_type file)) w w' (Ok v)
    /\ returns (STT.create_transcription (Some (STT.DeepgramProvider.make env))
                  file) w w' (Ok (JObj [ (lit "text", v) ])).
Proof.
  intros env file w resp body results channel more fields more' v rest s w'
    Hw H200 Hj Hr Hc Ha Ht.
  assert (Hct : str_or (upload_content_type file) (lit "audio/wav")
                = upload_content_type file).
  { unfold upload_content_type, opt_or, str_or.
    destruct (STT.content_type file) as [[|c ct]|]; reflexivity. }
  assert (H : returns (STT.DeepgramProvider.transcribe s (STT.file_bytes file)
                         (upload_filename file) (upload_content_type file))
                w w' (Ok v)).
  { unfold STT.DeepgramProvider.transcribe.
    eapply returns_bindR_ok.
    { eapply returns_conv; [apply returns_post; exact Hw|].
      subst w'. rewrite Hct. reflexivity. }
    rewrite H200. cbn [Z.eqb Pos.eqb negb].
    eapply returns_pureR_ok; [unfold response_json; rewrite Hj; reflexivity|].
    unfold pureR, STT.DeepgramProvider.extract_transcript.
    rewrite Hr. cbn [and_then]. rewrite Hc. cbn [and_then truthy json_first].
    rewrite Ha. cbn [and_then truthy json_first json_get]. rewrite Ht.
    apply returns_ret. }
  split; [exact H|]. apply create_transcription_text. exact H.
Qed.

(* ===================================================================== *)
(** ** The Piper provider and the rest of the world *)
(* ===================================================================== *)

Lemma with_disk_same w : with_disk (disk w) w = w.
Proof. now destruct w. Qed.

Lemma write_file_other p b d q : q <> p -> write_file p b d q = d q.
Proof. intros H. unfold write_file. now rewrite (str_eqb_neq H). Qed.

Section PiperFrame.
Context {rt : PyRuntime}.
Import TTS.PiperProvider.

(** The [try] block changes the world through the subprocess only. *)
Lemma run_piper_frame m tmp text w :
  exists d r,
    returns (run_piper m tmp text) w (with_disk d w) r
    /\ (d = disk w
        \/ exists input,
             d = fst (run w [lit "piper"; lit "--model"; m;
                             lit "--output_file"; tmp] input (disk w))).
Proof.
  set (cmd := [lit "piper"; lit "--model"; m; lit "--output_file"; tmp]).
  assert (Hsame : forall r', returns (run_piper m tmp text) w w r' ->
    exists d r,
      returns (run_piper m tmp text) w (with_disk d w) r
      /\ (d = disk w \/ exists input, d = fst (run w cmd input (disk w)))).
  { intros r' H. exists (disk w), r'. rewrite with_disk_same. auto. }
  pose proof (returns_trigger (Popen cmd) w) as Hp. simpl in Hp.
  destruct (spawn w cmd) as [[]|e].
  2:{ apply Hsame with (r' := Raise e). unfold run_piper. fold cmd.
      eapply returns_bindR_raise. exact Hp. }
  destruct (utf8_encode text) as [input|e] eqn:He.
  2:{ apply Hsame with (r' := Raise e). unfold run_piper. fold cmd.
      eapply returns_bindR_ok; [exact Hp|].
      eapply returns_pureR_raise. exact He. }
  pose proof (returns_trigger (Communicate cmd input 120) w) as Hc.
  simpl in Hc.
  destruct (run_piper_ends m tmp text w) as [w2 [r2 H2]].
  assert (Hw2 : w2 = with_disk (fst (run w cmd input (disk w))) w).
  { destruct (run w cmd input (disk w)) as [d [done|e]] eqn:Hr; simpl in Hc.
    - assert (Hrest : exists r3,
        returns (run_piper m tmp text) w (with_disk d w) r3).
      { pose proof (returns_trigger (ReadFile tmp) (with_disk d w)) as Hread.
        simpl in Hread.
        destruct (returncode done =? 0)%Z eqn:Hrc.
        - destruct (d tmp) as [audio|]; eexists; unfold run_piper; fold cmd;
            (eapply returns_bindR_ok; [exact Hp|]);
            (eapply returns_pureR_ok; [exact He|]);
            (eapply returns_bindR_ok; [exact Hc|]);
            rewrite Hrc; cbn [negb];
            (eapply returns_bind; [exact Hread|]); apply returns_ret.
        - destruct (utf8_decode (stderr done)) as [err|e] eqn:Hd; eexists;
            unfold run_piper; fold cmd;
            (eapply returns_bindR_ok; [exact Hp|]);
            (eapply returns_pureR_ok; [exact He|]);
            (eapply returns_bindR_ok; [exact Hc|]);
            rewrite Hrc; cbn [negb].
          + eapply returns_pureR_ok; [exact Hd|].
            eapply returns_pureR_ok; [exact Hd|]. apply returns_ret.
          + eapply returns_pureR_raise. exact Hd. }
      destruct Hrest as [r3 H3].
      now destruct (returns_unique H2 H3).
    - assert (H3 : returns (run_piper m tmp text) w (with_disk d w) (Raise e)).
      { unfold run_piper. fold cmd.
        eapply returns_bindR_ok; [exact Hp|].
        eapply returns_pureR_ok; [exact He|].
        eapply returns_bindR_raise. exact Hc. }
      now destruct (returns_unique H2 H3). }
  exists (fst (run w cmd input (disk w))), r2. split.
  - rewrite <- Hw2. exact H2.
  - right. exists input. reflexivity.
Qed.

(** The [finally] block removes the file and touches nothing else. *)
Lemma remove_tmp_frame tmp w :
  exists d,
    returns (remove_tmp tmp) w (with_disk d w) (Ok tt)
    /\ d tmp = None /\ forall q, q <> tmp -> d q = disk w q.
Proof.
  unfold remove_tmp. destruct (disk w tmp) as [b|] eqn:Hd.
  - exists (write_file tmp None (disk w)). split; [|split].
    + eapply returns_bind; [apply returns_path_exists|]. rewrite Hd.
      pose proof (returns_trigger (Unlink tmp) w) as H.
      simpl in H. rewrite Hd in H. exact H.
    + apply write_file_same.
    + intros q Hq. now apply write_file_other.
  - exists (disk w). rewrite with_disk_same. split; [|split; auto].
    eapply returns_bind; [apply returns_path_exists|]. rewrite Hd.
    apply returns_ret.
Qed.
End PiperFrame.

(** X17.  A call of the Piper provider's [synthesize] issues no HTTP
    call and no sleep: the call log and the scripted replies are as
    before, on every way out.  Its own effect on the disk is the
    temporary file, created and removed: when the temporary name was free
    and the subprocess leaves every other file as it is, the disk after
    the call is the disk before it. *)
Theorem X17_piper_leaves_the_world_as_it_was :
  forall (rt : PyRuntime) (s : TTS.PiperProvider.self) input voice speed w,
    exists w' out,
      returns (TTS.PiperProvider.synthesize s input voice speed) w w' out
      /\ replies w' = replies w
      /\ calls w' = calls w
      /\ (forall tmp,
            next_tmp w = Ok tmp ->
            disk w tmp = None ->
            (forall cmd stdin d0 q, q <> tmp -> fst (run w cmd stdin d0) q = d0 q) ->
            forall q, disk w' q = disk w q).
Proof.
  intros rt s input voice speed w.
  destruct (next_tmp w) as [tmp|e] eqn:Htmp.
  2:{ exists w, (Raise e). split; [now apply piper_without_tmp|].
      split; [reflexivity|]. split; [reflexivity|].
      intros tmp H. discriminate H. }
  set (w0 := with_disk (disk_with_tmp w tmp) w).
  destruct (run_piper_frame (piper_model s voice w) tmp input w0)
    as [d1 [r [Hrun Hd1]]].
  destruct (remove_tmp_frame tmp (with_disk d1 w0)) as [d2 [Hfin [Hgone Hother]]].
  exists (with_disk d2 (with_disk d1 w0)), r. split; [|split; [|split]].
  - unfold TTS.PiperProvider.synthesize. unfold piper_model in Hrun.
    destruct (TTS.PiperProvider._get_voice_path s voice)
      as [model_path piper_voice].
    eapply returns_bind; [apply returns_path_exists|].
    pose proof (returns_trigger (NamedTemporaryFile (lit ".wav")) w) as Hmk.
    simpl in Hmk. rewrite Htmp in Hmk. simpl in Hmk.
    eapply returns_bindR_ok; [exact Hmk|].
    eapply returns_try_finally; [|exact Hfin].
    destruct (disk w model_path); exact Hrun.
  - reflexivity.
  - reflexivity.
  - intros tmp' Heq Hfree Hkeeps q. injection Heq as <-.
    cbn [disk with_disk].
    destruct (str_eqb_spec q tmp) as [->|Hq]; [now rewrite Hgone, Hfree|].
    rewrite (Hother q Hq). cbn [disk with_disk].
    destruct Hd1 as [-> | [stdin ->]].
    + subst w0. cbn [disk with_disk]. unfold disk_with_tmp.
      now apply write_file_other.
    + subst w0. cbn [disk with_disk run]. rewrite (Hkeeps _ _ _ q Hq).
      unfold disk_with_tmp. now apply write_file_other.
Qed.




(* ===================================================================== *)
(** ** The further statements at concrete inputs *)
(* ===================================================================== *)



(** Piper was on the path at start-up and is gone now: healthy, and not
    configured. *)
Lemma X3_tts_health_after_startup_witness :
  TTS.health_check bare_env (TTS.startup (rt := ascii_runtime) thorsten_env)
  = mkHealth (lit "healthy") (Some (lit "Piper")) false.
Proof.
  apply (proj1 (@X3_tts_health_after_startup ascii_runtime thorsten_env
                  bare_env)); reflexivity.
Defined.

(** The Groq key was there at start-up and is gone now: still
    configured. *)
Lemma X4_stt_health_after_startup_witness :
  STT.health_check bare_env (STT.startup (rt := ascii_runtime) groq_env)
  = mkHealth (lit "healthy") (Some (lit "Groq (whisper-large-v3-turbo)")) true.
Proof.
  apply (proj1 (@X4_stt_health_after_startup ascii_runtime groq_env bare_env));
    reflexivity.
Defined.

Lemma X5_list_providers_witness :
  exists p, TTS.get_provider (rt := ascii_runtime) thorsten_env = Ok p.
Proof.
  apply (proj2 (proj2 (proj2
           (proj1 X5_list_providers ascii_runtime thorsten_env None)))).
  eexists. split; reflexivity.
Defined.

Lemma X6_kokoro_voice_is_known_witness :
  str_in (TTS.ReplicateKokoroProvider.kokoro_voice (rt := ascii_runtime)
            (TTS.ReplicateKokoroProvider.init bare_env) (lit "Zelda"))
    (TTS.ReplicateKokoroProvider.available_voices
       (TTS.ReplicateKokoroProvider.init bare_env))
  = true.
Proof.
  apply (proj2 (@X6_kokoro_voice_is_known ascii_runtime
                  (TTS.ReplicateKokoroProvider.init bare_env) (lit "Zelda"))).
  reflexivity.
Defined.

Lemma X7_piper_ignores_speed_and_default_voice_witness :
  TTS.PiperProvider.synthesize (rt := ascii_runtime)
    (TTS.PiperProvider.init thorsten_env) (lit "Hello") (lit "nova") 1%Q
  = TTS.PiperProvider.synthesize (rt := ascii_runtime)
      (TTS.PiperProvider.init bare_env) (lit "Hello") (lit "nova") 2%Q.
Proof.
  apply (@X7_piper_ignores_speed_and_default_voice ascii_runtime thorsten_env
           bare_env).
  reflexivity.
Defined.

Lemma X8_polling_round_witness :
  let s := TTS.ReplicateKokoroProvider.init bare_env in
  let w := scripted [reply_processing] in
  returns (TTS.ReplicateKokoroProvider.poll_once (rt := ascii_runtime) s
             (JStr (lit "p1")) 0) w
    (advance w []
       [kokoro_poll (rt := ascii_runtime) s (JStr (lit "p1")); Slept 500])
    (Ok (inl 1%nat)).
Proof.
  intros s w.
  exact (proj1 X8_polling_round ascii_runtime s (JStr (lit "p1")) 0%nat w
           (Ok reply_processing) [] eq_refl).
Defined.

Lemma X10_client_exception_ends_polling_witness :
  let s := TTS.ReplicateKokoroProvider.init bare_env in
  returns (TTS.ReplicateKokoroProvider.synthesize (rt := ascii_runtime) s
             (lit "Hello") (lit "nova") 1%Q) timeout_world
    (advance timeout_world []
       (kokoro_submit (rt := ascii_runtime) s (lit "Hello") (lit "nova") 1%Q
          :: poll_trace (kokoro_poll (rt := ascii_runtime) s (JStr (lit "p1")))
               500 1))
    (Raise read_timeout).
Proof.
  intros s.
  exact (proj1 X10_client_exception_ends_polling ascii_runtime s (lit "Hello")
           (lit "nova") 1%Q timeout_world reply_created (JStr (lit "p1"))
           [reply_processing] read_timeout [] eq_refl eq_refl eq_refl eq_refl).
Defined.

Lemma X11_accepted_submission_without_id_witness :
  let s := TTS.ReplicateKokoroProvider.init bare_env in
  let w := scripted [reply_created_bare; reply_processing] in
  returns (TTS.ReplicateKokoroProvider.synthesize (rt := ascii_runtime) s
             (lit "Hello") (lit "nova") 1%Q) w
    (advance w [Ok reply_processing]
       [kokoro_submit (rt := ascii_runtime) s (lit "Hello") (lit "nova") 1%Q])
    (Raise (KeyError (lit "'id'"))).
Proof.
  intros s w.
  exact (proj1 X11_accepted_submission_without_id ascii_runtime s (lit "Hello")
           (lit "nova") 1%Q w reply_created_bare (KeyError (lit "'id'"))
           [Ok reply_processing] eq_refl eq_refl eq_refl).
Defined.

Lemma X12_revai_refused_submission_witness :
  let s := STT.RevAIProvider.init bare_env in
  let w := scripted [reply_unauthorized] in
  returns (STT.RevAIProvider.transcribe (rt := ascii_runtime) s sample_audio
             (lit "a.wav") (lit "audio/wav")) w
    (advance w [] [revai_submit s sample_audio (lit "a.wav") (lit "audio/wav")])
    (Raise (HTTPException 401 (lit "Unauthenticated"))).
Proof.
  intros s w.
  apply (@X12_revai_refused_submission ascii_runtime s sample_audio
           (lit "a.wav") (lit "audio/wav") w reply_unauthorized []).
  - reflexivity.
  - vm_compute. discriminate.
Defined.

Lemma X13_revai_transcript_status_unchecked_witness :
  let s := STT.RevAIProvider.init bare_env in
  let w := scripted [job "in_progress"; job "transcribed"; reply_not_found] in
  returns (STT.RevAIProvider.transcribe (rt := ascii_runtime) s sample_audio
             (lit "a.wav") (lit "audio/wav")) w
    (advance w []
       ((revai_submit s sample_audio (lit "a.wav") (lit "audio/wav")
           :: poll_trace (revai_poll (rt := ascii_runtime) s (JStr (lit "j1")))
                1000 0)
        ++ [revai_fetch (rt := ascii_runtime) s (JStr (lit "j1"))]))
    (Ok (JStr [])).
Proof.
  intros s w.
  exact (@X13_revai_transcript_status_unchecked ascii_runtime s sample_audio
           (lit "a.wav") (lit "audio/wav") w (job "in_progress")
           (JStr (lit "j1")) [] (job "transcribed") reply_not_found
           [ (lit "title", JStr (lit "could not find job")) ] []
           eq_refl eq_refl eq_refl eq_refl eq_refl eq_refl eq_refl).
Defined.

Lemma X14_transcript_text_keeps_text_elements_only_witness :
  STT.RevAIProvider.extract_text (transcript_json dots_transcript) = Ok [].
Proof.
  apply (proj2 (@X14_transcript_text_keeps_text_elements_only dots_transcript 0)).
  simpl. intros e [<- | [<- | []]]; reflexivity.
Defined.

Lemma X15_groq_returns_text_field_witness :
  let w := scripted [reply_text] in
  exists w',
    returns (STT.create_transcription (Some (STT.GroqProvider.make bare_env))
               sample_upload) w w'
      (Ok (JObj [ (lit "text", JStr (lit "hi")) ])).
Proof.
  intros w. eexists.
  refine (proj2 (@X15_groq_returns_text_field bare_env sample_upload w
                   reply_text [ (lit "text", JStr (lit "hi")) ]
                   (JStr (lit "hi")) [] eq_refl eq_refl eq_refl eq_refl)).
Defined.

Lemma X16_deepgram_returns_first_alternative_witness :
  let w := scripted [reply_deepgram] in
  exists w',
    returns (STT.create_transcription (Some (STT.DeepgramProvider.make bare_env))
               sample_upload) w w'
      (Ok (JObj [ (lit "text", JStr (lit "hi")) ])).
Proof.
  intros w. eexists.
  refine (proj2 (@X16_deepgram_returns_first_alternative bare_env sample_upload
                   w reply_deepgram deepgram_body _ _ _ _ _ (JStr (lit "hi")) []
                   eq_refl eq_refl eq_refl eq_refl eq_refl eq_refl eq_refl)).
Defined.

Lemma X17_piper_leaves_the_world_as_it_was_witness :
  exists w' out,
    returns (TTS.PiperProvider.synthesize (rt := ascii_runtime)
               (TTS.PiperProvider.init bare_env) (lit "Hello") (lit "nova") 1%Q)
      quiet_world w' out
    /\ forall q, disk w' q = None.
Proof.
  destruct (@X17_piper_leaves_the_world_as_it_was ascii_runtime
              (TTS.PiperProvider.init bare_env) (lit "Hello") (lit "nova") 1%Q
              quiet_world) as [w' [out [H [_ [_ Hdisk]]]]].
  exists w', out. split; [exact H|].
  intros q.
  exact (Hdisk (lit "/tmp/tmpq0.wav") eq_refl eq_refl
           (fun _ _ _ _ _ => eq_refl) q).
Defined.

